(** * Duck Machine DM2019W CPU (cpu.py): a shallow embedding

    The file follows [cpu.py]: the arithmetic logic unit [ALU], the step
    event [CPUStep], and the [CPU] with its fetch/decode/execute cycle
    [step] and its driver loop [run].

    Python integers are unbounded, so every integer is a [Z].  A method that
    mutates [self] is a computation in a small state-and-exception monad
    [Exec]; an exception leaves the mutations done before it in place, as in
    Python. *)

From Stdlib Require Import ZArith Lia.
From stdpp Require Import base tactics option list.

Local Open Scope Z_scope.

(** ** Collaborators imported by cpu.py *)

(** Modelled from the spec: [OpCode] of instr_format.py, which is not part of
    the sources at hand; a closed enumeration of seven operation codes. *)
Inductive OpCode : Set := ADD | SUB | MUL | DIV | LOAD | STORE | HALT.

#[global] Instance OpCode_eq_dec : EqDecision OpCode.
Proof. solve_decision. Defined.

(** Modelled from the spec: [CondFlag] of instr_format.py, a bit-flag
    enumeration.  A flag value is the integer holding its bits; [&] is the
    bitwise and, and a flag is truthy when some bit is set. *)
Definition CondFlag : Set := Z.

Definition CondFlag_and (a b : CondFlag) : CondFlag := Z.land a b.

Definition CondFlag_bool (a : CondFlag) : bool := negb (a =? 0).

(** Modelled from the spec: [Instruction] of instr_format.py, the decoded
    fields of an instruction word.  Register fields are kept as integers and
    are resolved by Python's list indexing when the CPU uses them. *)
Record Instruction : Set := mkInstruction {
  op : OpCode;
  cond : CondFlag;
  reg_target : Z;
  reg_src1 : Z;
  reg_src2 : Z;
  offset : Z
}.

(** Modelled from the spec: [Register] and [ZeroRegister] of register.py.  A
    register is a mutable integer cell; the zero register always reads zero
    and discards what is written to it. *)
Inductive Register : Set :=
| Reg (value : Z)
| ZeroReg.

Definition Register_get (r : Register) : Z :=
  match r with
  | Reg v => v
  | ZeroReg => 0
  end.

Definition Register_put (v : Z) (r : Register) : Register :=
  match r with
  | Reg _ => Reg v
  | ZeroReg => ZeroReg
  end.

(** ** Exceptions and results *)

Inductive exn : Set :=
| ZeroDivisionError
| IndexError
| TypeError
| AddressError
| DecodeError
| EOFError
| KeyboardInterrupt.

Inductive outcome (A : Type) : Type :=
| Returns (a : A)
| Raises (e : exn).
Arguments Returns {A} a.
Arguments Raises {A} e.

(** What the builtin [input] does at a prompt: it returns the line that was
    typed, it raises ([EOFError] when the standard input is closed,
    [KeyboardInterrupt] when the user interrupts), or it waits for a line
    that never comes. *)
Inductive console_reply : Set :=
| Line_read
| Input_raises (e : exn)
| No_reply.

(** The rest of what cpu.py relies on is taken as a parameter: the memory
    behind the bus ([None] stands for its address-range error), the decoder
    ([None] stands for a malformed word), the bit values of the condition
    flags that the CPU names, and the console behind [input]: [console n] is
    what [input] does at the prompt of a run that shows the step count
    [n]. *)
Class Collaborators := {
  Memory : Type;
  Memory_get : Memory -> Z -> option Z;
  Memory_put : Memory -> Z -> Z -> option Memory;
  decode : Z -> option Instruction;
  CondFlag_M : CondFlag;
  CondFlag_Z : CondFlag;
  CondFlag_P : CondFlag;
  CondFlag_V : CondFlag;
  CondFlag_ALWAYS : CondFlag;
  console : Z -> console_reply
}.

(** ** ALU *)

Section ALU.
Context `{Collaborators}.

(** The table [ALU_OPS].  Python's [//] on integers is floor division, which
    is [Z.div] for a non-zero divisor, and raises on a zero divisor. *)
Definition ALU_OPS (o : OpCode) (x y : Z) : outcome Z :=
  match o with
  | ADD => Returns (x + y)
  | SUB => Returns (x - y)
  | MUL => Returns (x * y)
  | DIV => if y =? 0 then Raises ZeroDivisionError else Returns (x / y)
  | LOAD => Returns (x + y)
  | STORE => Returns (x + y)
  | HALT => Returns 0
  end.

(** [ALU.exec].  The bare [except] turns any exception of the [try] body
    into [(0, V)].  The [if]/[elif] chain has no [else]: when no test
    holds the method falls off its end and returns Python's [None], which
    is the [None] here. *)
Definition ALU_exec (o : OpCode) (in1 in2 : Z) : option (Z * CondFlag) :=
  match ALU_OPS o in1 in2 with
  | Returns result =>
      if result <? 0 then Some (result, CondFlag_M)
      else if result =? 0 then Some (result, CondFlag_Z)
      else if result >? 0 then Some (result, CondFlag_P)
      else None
  | Raises _ => Some (0, CondFlag_V)
  end.
End ALU.

(** ** CPU state *)

Section CPU.
Context `{Collaborators}.

(** The attributes of a CPU object other than its listeners. *)
Record CPUState : Type := mkCPUState {
  registers : list Register;
  memory : Memory;
  condition : CondFlag;
  halted : bool
}.

(** [CPUStep].  [subject] is a reference to the CPU; what a listener can
    read through it while it is being notified is the CPU state of that
    moment, which is what the field holds here. *)
Record CPUStep : Type := mkCPUStep {
  subject : CPUState;
  pc_addr : Z;
  instr_word : Z;
  instr : Instruction
}.

(** Modelled from the spec: the listener list of [MVCListenable] (mvc.py).
    A listener is represented by the events it has received, oldest
    first. *)
Definition Listener : Type := list CPUStep.

Record CPU : Type := mkCPU {
  state : CPUState;
  listeners : list Listener
}.

Definition set_registers (rs : list Register) (c : CPU) : CPU :=
  mkCPU (mkCPUState rs (memory (state c)) (condition (state c))
           (halted (state c)))
        (listeners c).

Definition set_memory (m : Memory) (c : CPU) : CPU :=
  mkCPU (mkCPUState (registers (state c)) m (condition (state c))
           (halted (state c)))
        (listeners c).

Definition set_condition (f : CondFlag) (c : CPU) : CPU :=
  mkCPU (mkCPUState (registers (state c)) (memory (state c)) f
           (halted (state c)))
        (listeners c).

Definition set_halted (b : bool) (c : CPU) : CPU :=
  mkCPU (mkCPUState (registers (state c)) (memory (state c))
           (condition (state c)) b)
        (listeners c).

(** [CPU.__init__]: sixteen registers, the first one the zero register. *)
Definition CPU_init (m : Memory) : CPU :=
  mkCPU (mkCPUState (ZeroReg :: replicate 15 (Reg 0)) m CondFlag_ALWAYS false)
        [].

(** [self.pc = self.registers[15]]: the program counter is the very cell at
    position 15 of the register list, not a copy of it. *)
Definition pc : nat := 15%nat.

(** The register list as [__init__] builds it: sixteen cells, the zero
    register first and ordinary registers after it.  No method of the CPU
    changes the list itself, only the contents of its cells. *)
Definition is_Reg (r : Register) : bool :=
  match r with
  | Reg _ => true
  | ZeroReg => false
  end.

Definition wf_registers (rs : list Register) : bool :=
  match rs with
  | ZeroReg :: tl => (length tl =? 15)%nat && forallb is_Reg tl
  | _ => false
  end.

(** ** The monad of CPU methods *)

Definition Exec (A : Type) : Type := CPU -> outcome A * CPU.

Definition ret {A} (a : A) : Exec A := fun c => (Returns a, c).

Definition raise {A} (e : exn) : Exec A := fun c => (Raises e, c).

Definition bind {A B} (m : Exec A) (k : A -> Exec B) : Exec B :=
  fun c =>
    match m c with
    | (Returns a, c') => k a c'
    | (Raises e, c') => (Raises e, c')
    end.

#[global] Instance Exec_ret : MRet Exec := @ret.
#[global] Instance Exec_bind : MBind Exec := fun A B k m => bind m k.

Definition when (b : bool) (m : Exec unit) : Exec unit :=
  if b then m else ret tt.

(** Reading and assigning attributes of [self]. *)
Definition gets {A} (f : CPUState -> A) : Exec A :=
  fun c => (Returns (f (state c)), c).

Definition modify (f : CPU -> CPU) : Exec unit :=
  fun c => (Returns tt, f c).

(** Python's list indexing [l[i]]: a negative index counts from the end,
    and an index out of range raises [IndexError]. *)
Definition py_index (len : nat) (i : Z) : option nat :=
  if 0 <=? i then
    if i <? Z.of_nat len then Some (Z.to_nat i) else None
  else
    if - Z.of_nat len <=? i then Some (Z.to_nat (Z.of_nat len + i)) else None.

(** [self.registers[i]]: the position of the cell that the expression
    denotes. *)
Definition register_at (i : Z) : Exec nat :=
  fun c =>
    match py_index (length (registers (state c))) i with
    | Some k => (Returns k, c)
    | None => (Raises IndexError, c)
    end.

(** [cell.get()] and [cell.put(v)] for the cell at position [k]. *)
Definition cell_get (k : nat) : Exec Z :=
  fun c =>
    match registers (state c) !! k with
    | Some r => (Returns (Register_get r), c)
    | None => (Raises IndexError, c)
    end.

Definition cell_put (k : nat) (v : Z) : Exec unit :=
  fun c =>
    (Returns tt, set_registers (alter (Register_put v) k (registers (state c))) c).

(** [self.memory.get(a)] and [self.memory.put(a, v)]. *)
Definition memory_get (a : Z) : Exec Z :=
  fun c =>
    match Memory_get (memory (state c)) a with
    | Some v => (Returns v, c)
    | None => (Raises AddressError, c)
    end.

Definition memory_put (a v : Z) : Exec unit :=
  fun c =>
    match Memory_put (memory (state c)) a v with
    | Some m => (Returns tt, set_memory m c)
    | None => (Raises AddressError, c)
    end.

Definition do_decode (w : Z) : Exec Instruction :=
  fun c =>
    match decode w with
    | Some i => (Returns i, c)
    | None => (Raises DecodeError, c)
    end.

(** [self.notify_all(CPUStep(self, counter, instr_word, instr))].
    Modelled from the spec: [notify_all] of [MVCListenable] (mvc.py) hands
    the event to every registered listener and does nothing to the CPU. *)
Definition notify_all (counter w : Z) (i : Instruction) : Exec unit :=
  fun c =>
    let event := mkCPUStep (state c) counter w i in
    (Returns tt, mkCPU (state c) ((fun l => l ++ [event]) <$> listeners c)).

(** [result_val, cond_code = self.alu.exec(...)]: unpacking [None] is a
    [TypeError]. *)
Definition alu_exec (o : OpCode) (l r : Z) : Exec (Z * CondFlag) :=
  match ALU_exec o l r with
  | Some p => ret p
  | None => raise TypeError
  end.

Definition is_arith (o : OpCode) : bool :=
  bool_decide (o = ADD) || bool_decide (o = SUB)
  || bool_decide (o = MUL) || bool_decide (o = DIV).

(** ** [CPU.step] *)

(** The four [if] statements that close the body of [if pre_satisfied:],
    one after the other: the effect of the operation. *)
Definition apply_op (i : Instruction) (result_val : Z) (cond_code : CondFlag)
    : Exec unit :=
  when (bool_decide (op i = STORE))
    (t ← register_at (reg_target i);
     v ← cell_get t;
     memory_put result_val v);;
  when (bool_decide (op i = LOAD))
    (t ← register_at (reg_target i);
     v ← memory_get result_val;
     cell_put t v);;
  when (bool_decide (op i = HALT))
    (modify (set_halted true));;
  when (is_arith (op i))
    (t ← register_at (reg_target i);
     cell_put t result_val;;
     modify (set_condition cond_code)).

(** The body of [if pre_satisfied:]. *)
Definition execute (counter : Z) (i : Instruction) : Exec unit :=
  let left_index := reg_src1 i in
  left_cell ← register_at left_index;
  left_op ← cell_get left_cell;
  let right_index := reg_src2 i in
  right_cell ← register_at right_index;
  right_val ← cell_get right_cell;
  let right_op := right_val + offset i in
  '(result_val, cond_code) ← alu_exec (op i) left_op right_op;
  let counter := counter + 1 in
  cell_put pc counter;;
  apply_op i result_val cond_code.

Definition step : Exec unit :=
  counter ← cell_get pc;
  w ← memory_get counter;
  i ← do_decode w;
  notify_all counter w i;;
  flag ← gets condition;
  let pre_satisfied := CondFlag_and flag (cond i) in
  if CondFlag_bool pre_satisfied then
    execute counter i
  else
    let counter := counter + 1 in
    cell_put pc counter.

(** ** [CPU.run] *)

(** [if single_step: input("Step {}; press enter".format(step_count))]:
    the pause of single-step mode.  The line that [input] returns is thrown
    away; without single-step mode nothing is asked of the console. *)
Definition pause (single_step : bool) (step_count : Z) : console_reply :=
  if single_step then console step_count else Line_read.

(** The [while not self.halted] loop.  [fuel] bounds the number of
    iterations; [None] means that the loop has not come to an end: the bound
    was reached with the loop still running, or [input] waits for a line
    that never comes.  An exception of [input] leaves the loop as one of
    [step] does.  The final value of the local [step_count] is handed back so
    that the number of iterations can be talked about. *)
Fixpoint run_loop (fuel : nat) (single_step : bool) (step_count : Z)
    (c : CPU) : option (outcome Z * CPU) :=
  if halted (state c) then Some (Returns step_count, c)
  else
    match fuel with
    | O => None
    | S fuel' =>
        match pause single_step step_count with
        | Line_read =>
            match step c with
            | (Returns _, c') => run_loop fuel' single_step (step_count + 1) c'
            | (Raises e, c') => Some (Raises e, c')
            end
        | Input_raises e => Some (Raises e, c)
        | No_reply => None
        end
    end.

(** The two assignments that open [run]. *)
Definition run_reset (from_addr : Z) : Exec unit :=
  modify (set_halted false);;
  cell_put pc from_addr.

Definition run (fuel : nat) (from_addr : Z) (single_step : bool)
    (c : CPU) : option (outcome Z * CPU) :=
  match run_reset from_addr c with
  | (Returns _, c') => run_loop fuel single_step 0 c'
  | (Raises e, c') => Some (Raises e, c')
  end.
End CPU.

(** ** A concrete machine

    An instance of the collaborators on which the model can be run: the
    memory is a list of words addressed from zero, an address outside the
    list being the address-range error; an instruction word is the position
    of its instruction in a fixed table; the flags are single bits and
    [ALWAYS] is all of them; the user answers every prompt. *)
Module Demo.
Definition table : list Instruction :=
  [ mkInstruction ADD 15 1 0 0 5;        (* 0: r1 := r0 + r0 + 5 *)
    mkInstruction STORE 15 1 0 0 100;    (* 1: mem[r0 + r0 + 100] := r1 *)
    mkInstruction HALT 15 0 0 0 0;       (* 2: halt *)
    mkInstruction SUB 15 2 0 1 0;        (* 3: r2 := r0 - r1 *)
    mkInstruction LOAD 15 3 0 0 100;     (* 4: r3 := mem[r0 + r0 + 100] *)
    mkInstruction ADD 4 15 0 0 7;        (* 5: if P: r15 := r0 + r0 + 7 *)
    mkInstruction DIV 15 4 1 0 0;        (* 6: r4 := r1 / (r0 + 0) *)
    mkInstruction ADD 15 15 1 0 40;      (* 7: r15 := r1 + r0 + 40 *)
    mkInstruction HALT 1 0 99 99 0;      (* 8: if M: halt, with registers 99 *)
    mkInstruction ADD 1 5 0 0 1 ].       (* 9: if M: r5 := r0 + r0 + 1 *)

Definition get (m : list Z) (a : Z) : option Z :=
  if 0 <=? a then m !! Z.to_nat a else None.

Definition put (m : list Z) (a v : Z) : option (list Z) :=
  if (0 <=? a) && (a <? Z.of_nat (length m))
  then Some (<[Z.to_nat a := v]> m) else None.

Definition decode_word (w : Z) : option Instruction :=
  if 0 <=? w then table !! Z.to_nat w else None.

#[global] Instance machine : Collaborators := {|
  Memory := list Z;
  Memory_get := get;
  Memory_put := put;
  decode := decode_word;
  CondFlag_M := 1;
  CondFlag_Z := 2;
  CondFlag_P := 4;
  CondFlag_V := 8;
  CondFlag_ALWAYS := 15;
  console := fun _ => Line_read
|}.

(** A memory of 128 words holding [prog] from address zero on. *)
Definition load (prog : list Z) : list Z :=
  prog ++ replicate (128 - length prog) 0.

(** A CPU as [__init__] leaves it, with one listener registered. *)
Definition boot (prog : list Z) : CPU :=
  mkCPU (state (CPU_init (load prog))) [[]].

(** The CPU after [n] cycles on [prog] from address zero. *)
Fixpoint cycles (n : nat) (c : CPU) : CPU :=
  match n with
  | O => c
  | S n' => cycles n' (step c).2
  end.

Definition after (n : nat) (prog : list Z) : CPU := cycles n (boot prog).

(** CPUs about to fetch: a HALT whose predicate is not satisfied, a STORE,
    a LOAD, a HALT, and an ADD into register 15. *)
Definition at_skip : CPU := after 1 [0; 8; 2].
Definition at_store : CPU := after 1 [0; 1; 2].
Definition at_load : CPU := after 2 [0; 1; 4; 2].
Definition at_halt : CPU := after 2 [0; 1; 2].
Definition at_jump : CPU := after 1 [0; 7; 2].

(** The CPU that has run ADD, STORE, HALT to the end and is halted. *)
Definition at_end : CPU := after 3 [0; 1; 2].

Definition skip_instr : Instruction := mkInstruction HALT 1 0 99 99 0.
Definition add_instr : Instruction := mkInstruction ADD 15 1 0 0 5.
Definition store_instr : Instruction := mkInstruction STORE 15 1 0 0 100.
Definition load_instr : Instruction := mkInstruction LOAD 15 3 0 0 100.
Definition halt_instr : Instruction := mkInstruction HALT 15 0 0 0 0.
Definition jump_instr : Instruction := mkInstruction ADD 15 15 1 0 40.
End Demo.

(** ** Notions used to state the properties *)

Section Notions.
Context `{Collaborators}.

(** [q] is the quotient of [a] by [b] rounded toward negative infinity:
    [q <= a / b < q + 1] over the rationals, with the division cleared. *)
Definition floor_quotient (a b q : Z) : Prop :=
  (0 < b /\ b * q <= a < b * q + b) \/ (b < 0 /\ b * q + b < a <= b * q).

(** The exact value of an arithmetic operation. *)
Definition arith_value (o : OpCode) (a b v : Z) : Prop :=
  match o with
  | ADD => v = a + b
  | SUB => v = a - b
  | MUL => v = a * b
  | DIV => floor_quotient a b v
  | _ => False
  end.

(** The flag that matches the sign of [v]. *)
Definition sign_flag (v : Z) (f : CondFlag) : Prop :=
  (v < 0 -> f = CondFlag_M) /\ (v = 0 -> f = CondFlag_Z) /\
  (0 < v -> f = CondFlag_P).

(** The value that the register named [i] by an instruction holds in the
    register list [rs]. *)
Definition reg_value (rs : list Register) (i : Z) : option Z :=
  k ← py_index (length rs) i; Register_get <$> rs !! k.

(** The program counter holds [counter], the word at that address is [w]
    and [w] decodes to [i]: the cycle that starts in [c] fetches [i]. *)
Definition fetches (c : CPU) (counter w : Z) (i : Instruction) : Prop :=
  registers (state c) !! pc = Some (Reg counter) /\
  Memory_get (memory (state c)) counter = Some w /\
  decode w = Some i.

(** The event of that cycle, and the CPU once every listener has received
    it: the CPU state itself is as it was. *)
Definition step_event (c : CPU) (counter w : Z) (i : Instruction) : CPUStep :=
  mkCPUStep (state c) counter w i.

Definition notified (c : CPU) (counter w : Z) (i : Instruction) : CPU :=
  mkCPU (state c) ((fun l => l ++ [step_event c counter w i]) <$> listeners c).

(** The CPU once [put] has stored [counter + 1] in the program counter. *)
Definition advanced (c : CPU) (counter : Z) : CPU :=
  set_registers (alter (Register_put (counter + 1)) pc (registers (state c))) c.

(** A computation keeps the observation [f] of the CPU when [f] reads the
    same after it as before it, whether it returns or raises. *)
Definition keeps {A X} (f : CPU -> X) (m : Exec A) : Prop :=
  forall c, f (m c).2 = f c.

(** The predicate of [i] is satisfied in [c]. *)
Definition satisfied (c : CPU) (i : Instruction) : Prop :=
  CondFlag_and (condition (state c)) (cond i) <> 0.

(** Stepping repeatedly until [halted] is true: [runs_to c n c'] when [n]
    calls of [step], each returning normally and each made with [halted]
    false, lead from [c] to [c'] and [halted] is true in [c']. *)
Inductive runs_to : CPU -> nat -> CPU -> Prop :=
| runs_halted c :
    halted (state c) = true -> runs_to c 0 c
| runs_step c c1 n c' :
    halted (state c) = false ->
    step c = (Returns tt, c1) ->
    runs_to c1 n c' ->
    runs_to c (S n) c'.
End Notions.

(** ** More notions, and a second concrete machine *)

Section More_notions.
Context `{Collaborators}.

(** The flags that the ALU hands out. *)
Definition ALU_flag (f : CondFlag) : Prop :=
  f = CondFlag_M \/ f = CondFlag_Z \/ f = CondFlag_P \/ f = CondFlag_V.

(** Every listener has received the events [es], in that order, on top of
    what it had. *)
Definition delivered (es : list CPUStep) (before after : list Listener) : Prop :=
  after = (fun l => l ++ es) <$> before.
End More_notions.

(** A machine whose memory holds, at address [k], the word of instruction
    [k] of its table, so that a CPU with the program counter at [k] is about
    to fetch that instruction; address 10 holds a word that is no
    instruction.  Its standard input is closed, so that [input] raises
    [EOFError].  It is not declared as an instance. *)
Module Bench.
Definition table : list Instruction :=
  [ mkInstruction SUB 15 0 1 2 0;       (* 0: compare r1 with r2 *)
    mkInstruction ADD 15 3 15 0 10;     (* 1: r3 := r15 + r0 + 10 *)
    mkInstruction STORE 15 15 0 0 6;    (* 2: mem[r0 + r0 + 6] := r15 *)
    mkInstruction DIV 15 4 1 0 0;       (* 3: r4 := r1 / (r0 + 0) *)
    mkInstruction ADD 15 15 15 0 0;     (* 4: r15 := r15 + r0 + 0 *)
    mkInstruction STORE 15 1 0 0 100;   (* 5: mem[100] := r1, no such address *)
    mkInstruction LOAD 15 1 0 0 100;    (* 6: r1 := mem[100], no such address *)
    mkInstruction ADD 15 16 0 0 1;      (* 7: r16 := ..., no such register *)
    mkInstruction ADD 15 1 16 0 1;      (* 8: r1 := r16 + ..., no such register *)
    mkInstruction HALT 15 0 0 0 0 ].    (* 9: halt *)

Definition decode_word (w : Z) : option Instruction :=
  if 0 <=? w then table !! Z.to_nat w else None.

Definition machine : Collaborators := {|
  Memory := list Z;
  Memory_get := Demo.get;
  Memory_put := Demo.put;
  decode := decode_word;
  CondFlag_M := 1;
  CondFlag_Z := 2;
  CondFlag_P := 4;
  CondFlag_V := 8;
  CondFlag_ALWAYS := 15;
  console := fun _ => Input_raises EOFError
|}.

Definition words : list Z := [0; 1; 2; 3; 4; 5; 6; 7; 8; 9; 77].

(** The CPU with r1 = 3, r2 = 7, the program counter at [counter], the flag
    [flag], not halted, and one listener. *)
Definition cpu (counter : Z) (flag : CondFlag) : @CPU machine :=
  @mkCPU machine
    (@mkCPUState machine
       ([ZeroReg; Reg 3; Reg 7] ++ replicate 12 (Reg 0) ++ [Reg counter])
       words flag false)
    [[]].

Definition instruction (k : nat) : Instruction :=
  default (mkInstruction HALT 0 0 0 0 0) (table !! k).
End Bench.

(** The end-to-end scenario of the specification: after [run(0)] on the
    program ADD, STORE, HALT, word 100 of the memory holds 5, the CPU is
    halted and the program counter is 3. *)
Example run_add_store_halt :
  match run 10 0 false (Demo.boot [0; 1; 2]) with
  | Some (Returns n, c) =>
      n = 3 /\ memory (state c) !! 100%nat = Some 5 /\
      halted (state c) = true /\
      registers (state c) !! pc = Some (Reg 3)
  | _ => False
  end.
Proof. vm_compute. auto. Qed.

(** The second scenario: the SUB leaves -5 and the flag M; the ADD
    predicated on P is skipped, so the program counter is not set to 7, and
    the ADD predicated on M is executed. *)
Example run_predicated :
  match run 10 0 false (Demo.boot [0; 3; 5; 9; 2]) with
  | Some (Returns n, c) =>
      n = 5 /\ registers (state c) !! 2%nat = Some (Reg (-5)) /\
      registers (state c) !! 5%nat = Some (Reg 1) /\
      registers (state c) !! pc = Some (Reg 5) /\
      condition (state c) = CondFlag_P
  | _ => False
  end.
Proof. vm_compute. auto 6. Qed.

(** Single-step mode with the standard input closed: [input] raises
    [EOFError] at the first prompt, before any call of [step]; the CPU is the
    reset CPU and its listener has received nothing. *)
Example run_single_step_closed_stdin :
  run 10 9 true (Bench.cpu 0 15) =
    Some (Raises EOFError, (run_reset 9 (Bench.cpu 0 15)).2) /\
  listeners (run_reset 9 (Bench.cpu 0 15)).2 = [[]].
Proof. split; reflexivity. Qed.

(** Single-step mode with every prompt answered runs as the plain mode. *)
Example run_single_step_answered :
  run 10 0 true (Demo.boot [0; 1; 2]) = run 10 0 false (Demo.boot [0; 1; 2]).
Proof. reflexivity. Qed.

(** ** The ALU *)

Section ALU_facts.
Context `{Collaborators}.

(** [Z.div] is the floor quotient whenever the divisor is not zero. *)
Lemma Zdiv_floor_quotient (a b : Z) : b <> 0 -> floor_quotient a b (a / b).
Proof.
  intros Hb. unfold floor_quotient.
  destruct (Z.lt_trichotomy b 0) as [Hneg | [Hz | Hpos]]; [right | lia | left].
  - pose proof (Z.div_mod a b Hb) as Hdm.
    pose proof (Z.mod_neg_bound a b Hneg) as Hr. lia.
  - pose proof (Z.div_mod a b Hb) as Hdm.
    pose proof (Z.mod_pos_bound a b Hpos) as Hr. lia.
Qed.

(** The floor quotient is unique, so [floor_quotient] does determine the
    value. *)
Lemma floor_quotient_unique (a b q q' : Z) :
  floor_quotient a b q -> floor_quotient a b q' -> q = q'.
Proof. unfold floor_quotient. intros [[? ?] | [? ?]] [[? ?] | [? ?]]; nia. Qed.

(** On a value that the table computes, [exec] pairs it with the flag of
    its sign. *)
Lemma ALU_exec_returns (o : OpCode) (a b v : Z) :
  ALU_OPS o a b = Returns v ->
  exists f, ALU_exec o a b = Some (v, f) /\ sign_flag v f.
Proof.
  intros Hv. unfold ALU_exec, sign_flag. rewrite Hv.
  destruct (Z.ltb_spec v 0) as [Hlt | Hge].
  - eexists; split; [reflexivity | lia].
  - destruct (Z.eqb_spec v 0) as [Heq | Hne].
    + eexists; split; [reflexivity | lia].
    + assert ((v >? 0) = true) as -> by lia.
      eexists; split; [reflexivity | lia].
Qed.

(** [exec] never falls off its end: it always returns a pair. *)
Lemma ALU_exec_total (o : OpCode) (a b : Z) : is_Some (ALU_exec o a b).
Proof.
  destruct (ALU_OPS o a b) as [v | e] eqn:Hv.
  - destruct (ALU_exec_returns o a b v Hv) as (f & -> & _). eauto.
  - unfold ALU_exec. rewrite Hv. eauto.
Qed.

(** C1: for ADD, SUB, MUL and DIV, with a non-zero right operand in the
    case of DIV, [exec] returns the exact sum, difference, product or floor
    quotient, paired with the flag of the sign of that value: M when it is
    negative, Z when it is zero, P when it is positive. *)
Theorem ALU_exec_arith (o : OpCode) (a b : Z) :
  is_arith o = true ->
  (o = DIV -> b <> 0) ->
  exists v f,
    ALU_exec o a b = Some (v, f) /\ arith_value o a b v /\ sign_flag v f.
Proof.
  intros Ho Hb.
  assert (exists v, ALU_OPS o a b = Returns v /\ arith_value o a b v)
    as (v & Hv & Hexact).
  { destruct o; try discriminate Ho; simpl; eauto.
    destruct (Z.eqb_spec b 0) as [Hz | Hnz]; [by destruct Hb |].
    eexists; split; [reflexivity | by apply Zdiv_floor_quotient]. }
  destruct (ALU_exec_returns o a b v Hv) as (f & Hexec & Hflag).
  by exists v, f.
Qed.

(** C2: dividing by zero returns [(0, V)]; the result is a returned pair,
    not an exception, whatever the left operand. *)
Theorem ALU_exec_div_zero (a : Z) : ALU_exec DIV a 0 = Some (0, CondFlag_V).
Proof. reflexivity. Qed.
End ALU_facts.

(** Floor division on the concrete machine: [-7 // 2] is [-4], flagged M. *)
Lemma ALU_exec_arith_witness :
  exists v f,
    ALU_exec DIV (-7) 2 = Some (v, f) /\ arith_value DIV (-7) 2 v /\
    sign_flag v f.
Proof. apply ALU_exec_arith; [reflexivity | intros _; lia]. Defined.

(** ** The monad and its primitives *)

Section Exec_facts.
Context `{Collaborators}.

Lemma bind_Returns {A B} (m : Exec A) (k : A -> Exec B) c a c' :
  m c = (Returns a, c') -> (m ≫= k) c = k a c'.
Proof. intros Hm. unfold mbind, Exec_bind, bind. by rewrite Hm. Qed.

Lemma bind_Raises {A B} (m : Exec A) (k : A -> Exec B) c e c' :
  m c = (Raises e, c') -> (m ≫= k) c = (Raises e, c').
Proof. intros Hm. unfold mbind, Exec_bind, bind. by rewrite Hm. Qed.

Lemma register_at_Returns (i : Z) (k : nat) c :
  py_index (length (registers (state c))) i = Some k ->
  register_at i c = (Returns k, c).
Proof. intros Hk. unfold register_at. by rewrite Hk. Qed.

Lemma cell_get_Returns (k : nat) (r : Register) c :
  registers (state c) !! k = Some r ->
  cell_get k c = (Returns (Register_get r), c).
Proof. intros Hr. unfold cell_get. by rewrite Hr. Qed.

Lemma memory_get_Returns (a v : Z) c :
  Memory_get (memory (state c)) a = Some v ->
  memory_get a c = (Returns v, c).
Proof. intros Hv. unfold memory_get. by rewrite Hv. Qed.

Lemma memory_put_Returns (a v : Z) (m : Memory) c :
  Memory_put (memory (state c)) a v = Some m ->
  memory_put a v c = (Returns tt, set_memory m c).
Proof. intros Hm. unfold memory_put. by rewrite Hm. Qed.

Lemma do_decode_Returns (w : Z) (i : Instruction) c :
  decode w = Some i -> do_decode w c = (Returns i, c).
Proof. intros Hi. unfold do_decode. by rewrite Hi. Qed.

(** Reading the register that an instruction names. *)
Lemma reg_value_Some (rs : list Register) (i v : Z) :
  reg_value rs i = Some v ->
  exists k r, py_index (length rs) i = Some k /\ rs !! k = Some r /\
              Register_get r = v.
Proof.
  unfold reg_value. intros Hv.
  destruct (py_index (length rs) i) as [k |]; simpl in Hv; [| done].
  destruct (rs !! k) as [r |] eqn:Hr; simpl in Hv; [| done].
  exists k, r. repeat split; congruence.
Qed.

Lemma read_register {B} (i v : Z) (k : nat -> Z -> Exec B) c :
  reg_value (registers (state c)) i = Some v ->
  exists n, py_index (length (registers (state c))) i = Some n /\
    (register_at i ≫= fun n => cell_get n ≫= k n) c = k n v c.
Proof.
  intros (n & r & Hn & Hr & <-)%reg_value_Some. exists n. split; [done |].
  rewrite (bind_Returns _ _ _ _ _ (register_at_Returns _ _ _ Hn)).
  by rewrite (bind_Returns _ _ _ _ _ (cell_get_Returns _ _ _ Hr)).
Qed.

(** Python's indexing yields a position inside the list, and the plain
    indices are their own positions. *)
Lemma py_index_lt (len : nat) (i : Z) (k : nat) :
  py_index len i = Some k -> (k < len)%nat.
Proof. unfold py_index. repeat case_match; intros; simplify_eq; lia. Qed.

Lemma py_index_nonneg (len : nat) (i : Z) :
  0 <= i < Z.of_nat len -> py_index len i = Some (Z.to_nat i).
Proof.
  intros Hi. unfold py_index.
  assert ((0 <=? i) = true) as -> by lia.
  by assert ((i <? Z.of_nat len) = true) as -> by lia.
Qed.

(** *** What each primitive keeps *)

Lemma keeps_ret {A X} (f : CPU -> X) (a : A) : keeps f (mret a).
Proof. done. Qed.

Lemma keeps_raise {A X} (f : CPU -> X) (e : exn) : keeps f (@raise _ A e).
Proof. done. Qed.

Lemma keeps_bind {A B X} (f : CPU -> X) (m : Exec A) (k : A -> Exec B) :
  keeps f m -> (forall a, keeps f (k a)) -> keeps f (m ≫= k).
Proof.
  intros Hm Hk c. unfold mbind, Exec_bind, bind.
  specialize (Hm c). destruct (m c) as [[a | e] c1]; simpl in *.
  - by rewrite Hk.
  - done.
Qed.

Lemma keeps_when {X} (f : CPU -> X) (b : bool) (m : Exec unit) :
  keeps f m -> keeps f (when b m).
Proof. destruct b; [done | intros _; apply keeps_ret]. Qed.

Lemma keeps_register_at {X} (f : CPU -> X) (i : Z) : keeps f (register_at i).
Proof. intros c. unfold register_at. by case_match. Qed.

Lemma keeps_cell_get {X} (f : CPU -> X) (k : nat) : keeps f (cell_get k).
Proof. intros c. unfold cell_get. by case_match. Qed.

Lemma keeps_memory_get {X} (f : CPU -> X) (a : Z) : keeps f (memory_get a).
Proof. intros c. unfold memory_get. by case_match. Qed.

Lemma keeps_do_decode {X} (f : CPU -> X) (w : Z) : keeps f (do_decode w).
Proof. intros c. unfold do_decode. by case_match. Qed.

Lemma keeps_gets {A X} (f : CPU -> X) (g : CPUState -> A) : keeps f (gets g).
Proof. done. Qed.

Lemma keeps_alu_exec {X} (f : CPU -> X) (o : OpCode) (l r : Z) :
  keeps f (alu_exec o l r).
Proof. intros c. unfold alu_exec. by case_match. Qed.

(** An observation that does not read the registers is kept by [put] on a
    cell, and likewise for the other attributes. *)
Lemma keeps_cell_put {X} (f : CPU -> X) (k : nat) (v : Z) :
  (forall rs c, f (set_registers rs c) = f c) -> keeps f (cell_put k v).
Proof. intros Hf c. apply Hf. Qed.

Lemma keeps_memory_put {X} (f : CPU -> X) (a v : Z) :
  (forall m c, f (set_memory m c) = f c) -> keeps f (memory_put a v).
Proof. intros Hf c. unfold memory_put. case_match; [apply Hf | done]. Qed.

Lemma keeps_set_halted {X} (f : CPU -> X) (b : bool) :
  (forall c, f (set_halted b c) = f c) -> keeps f (modify (set_halted b)).
Proof. intros Hf c. apply Hf. Qed.

Lemma keeps_set_condition {X} (f : CPU -> X) (g : CondFlag) :
  (forall c, f (set_condition g c) = f c) -> keeps f (modify (set_condition g)).
Proof. intros Hf c. apply Hf. Qed.
End Exec_facts.

(** ** One cycle *)

Section step_facts.
Context `{Collaborators}.

Ltac exec_simpl :=
  unfold mbind, Exec_bind, bind, when, register_at, cell_get, cell_put,
    memory_get, memory_put, modify, ret; simpl.

(** Fetch, decode and publish: the rest of the cycle runs on the CPU whose
    listeners have received the event. *)
Lemma step_fetches c counter w i :
  fetches c counter w i ->
  step c =
    (if CondFlag_bool (CondFlag_and (condition (state c)) (cond i))
     then execute counter i
     else cell_put pc (counter + 1)) (notified c counter w i).
Proof.
  intros (Hpc & Hw & Hi). unfold step.
  rewrite (bind_Returns _ _ _ _ _ (cell_get_Returns _ _ _ Hpc)). simpl.
  rewrite (bind_Returns _ _ _ _ _ (memory_get_Returns _ _ _ Hw)).
  rewrite (bind_Returns _ _ _ _ _ (do_decode_Returns _ _ _ Hi)).
  reflexivity.
Qed.

Lemma satisfied_bool c i :
  satisfied c i ->
  CondFlag_bool (CondFlag_and (condition (state c)) (cond i)) = true.
Proof. unfold satisfied, CondFlag_bool. intros Hs. apply negb_true_iff. lia. Qed.

(** Operands, ALU and the advance of the program counter. *)
Lemma execute_operands counter i c l r :
  reg_value (registers (state c)) (reg_src1 i) = Some l ->
  reg_value (registers (state c)) (reg_src2 i) = Some r ->
  exists v f, ALU_exec (op i) l (r + offset i) = Some (v, f) /\
    execute counter i c = apply_op i v f (advanced c counter).
Proof.
  intros Hl Hr.
  destruct (ALU_exec_total (op i) l (r + offset i)) as [[v f] Hvf].
  exists v, f. split; [done |]. unfold execute. cbv zeta.
  edestruct (read_register (B:=unit) (reg_src1 i) l) as (n1 & _ & ->); [done |].
  edestruct (read_register (B:=unit) (reg_src2 i) r) as (n2 & _ & ->); [done |].
  simpl. unfold alu_exec. rewrite Hvf. reflexivity.
Qed.

(** A satisfied cycle whose operands can be read. *)
Lemma step_satisfied c counter w i l r :
  fetches c counter w i -> satisfied c i ->
  reg_value (registers (state c)) (reg_src1 i) = Some l ->
  reg_value (registers (state c)) (reg_src2 i) = Some r ->
  exists v f, ALU_exec (op i) l (r + offset i) = Some (v, f) /\
    step c = apply_op i v f (advanced (notified c counter w i) counter).
Proof.
  intros Hf Hs Hl Hr.
  rewrite (step_fetches _ _ _ _ Hf), (satisfied_bool _ _ Hs).
  by apply execute_operands.
Qed.

(** The effect of each kind of operation. *)
Lemma apply_op_STORE i v f c x m :
  op i = STORE ->
  reg_value (registers (state c)) (reg_target i) = Some x ->
  Memory_put (memory (state c)) v x = Some m ->
  apply_op i v f c = (Returns tt, set_memory m c).
Proof.
  intros Ho (t & r & Ht & Hr & <-)%reg_value_Some Hm.
  unfold apply_op. rewrite Ho. exec_simpl. by rewrite Ht, Hr, Hm.
Qed.

Lemma apply_op_LOAD i v f c t x :
  op i = LOAD ->
  py_index (length (registers (state c))) (reg_target i) = Some t ->
  Memory_get (memory (state c)) v = Some x ->
  apply_op i v f c =
    (Returns tt, set_registers (alter (Register_put x) t (registers (state c))) c).
Proof.
  intros Ho Ht Hx. unfold apply_op. rewrite Ho. exec_simpl.
  by rewrite Ht, Hx.
Qed.

Lemma apply_op_HALT i v f c :
  op i = HALT -> apply_op i v f c = (Returns tt, set_halted true c).
Proof. intros Ho. unfold apply_op. by rewrite Ho. Qed.

Lemma apply_op_arith i v f c t :
  is_arith (op i) = true ->
  py_index (length (registers (state c))) (reg_target i) = Some t ->
  apply_op i v f c =
    (Returns tt,
     set_condition f
       (set_registers (alter (Register_put v) t (registers (state c))) c)).
Proof.
  intros Ho Ht. unfold apply_op.
  destruct (op i); try discriminate Ho; exec_simpl; by rewrite Ht.
Qed.

(** The ALU computes the address of a LOAD or a STORE. *)
Lemma ALU_exec_address o l r v f :
  o = LOAD \/ o = STORE -> ALU_exec o l r = Some (v, f) -> v = l + r.
Proof.
  intros Ho Hv.
  assert (ALU_OPS o l r = Returns (l + r)) as Hops by (by destruct Ho as [-> | ->]).
  destruct (ALU_exec_returns _ _ _ _ Hops) as (f' & Hv' & _). congruence.
Qed.

(** Writing into a cell, and reading the list afterwards. *)
Lemma lookup_put_eq (rs : list Register) (k : nat) (v x : Z) :
  rs !! k = Some (Reg x) -> alter (Register_put v) k rs !! k = Some (Reg v).
Proof. intros Hk. by rewrite list_lookup_alter_eq, Hk. Qed.

Lemma lookup_put_ne (rs : list Register) (k j : nat) (v : Z) :
  j <> k -> alter (Register_put v) k rs !! j = rs !! j.
Proof. intros Hne. by apply list_lookup_alter_ne. Qed.

(** *** Observations kept by the cycle *)

Ltac solve_keeps :=
  repeat first
    [ done
    | apply keeps_bind; [| intros ?]
    | apply keeps_when
    | apply keeps_ret
    | apply keeps_register_at | apply keeps_cell_get | apply keeps_memory_get
    | apply keeps_do_decode | apply keeps_gets | apply keeps_alu_exec ].

Section keeps_cycle.
Context {X} (f : CPU -> X) (i : Instruction).
Hypothesis Hcell : forall k v, keeps f (cell_put k v).
Hypothesis Hmem : forall a v, keeps f (memory_put a v).
Hypothesis Hhalt : keeps f (modify (set_halted true)).
Hypothesis Hcond :
  is_arith (op i) = true -> forall g, keeps f (modify (set_condition g)).

Lemma keeps_apply_op v g : keeps f (apply_op i v g).
Proof.
  unfold apply_op. do 3 (apply keeps_bind; [solve_keeps | intros _]).
  destruct (is_arith (op i)); [| apply keeps_ret].
  simpl. solve_keeps. by apply Hcond.
Qed.

Lemma keeps_execute counter : keeps f (execute counter i).
Proof.
  unfold execute. do 4 (apply keeps_bind; [solve_keeps | intros ?]).
  apply keeps_bind; [solve_keeps | intros [v g]].
  apply keeps_bind; [solve_keeps | intros _]. apply keeps_apply_op.
Qed.
End keeps_cycle.

(** One iteration of the loop of [run] on a CPU that is not halted: the
    pause, then the cycle. *)
Lemma run_loop_S fuel (single_step : bool) (n : Z) c :
  halted (state c) = false ->
  run_loop (S fuel) single_step n c =
    match pause single_step n with
    | Line_read =>
        match step c with
        | (Returns _, c') => run_loop fuel single_step (n + 1) c'
        | (Raises e, c') => Some (Raises e, c')
        end
    | Input_raises e => Some (Raises e, c)
    | No_reply => None
    end.
Proof. intros Hh. simpl. by rewrite Hh. Qed.

Lemma run_loop_halted fuel single_step k c :
  halted (state c) = true ->
  run_loop fuel single_step k c = Some (Returns k, c).
Proof. intros Hh. destruct fuel; simpl; by rewrite Hh. Qed.
End step_facts.

Section step_claims.
Context `{Collaborators}.

(** C3: when the condition flag and the mask of the fetched instruction
    have no bit in common, the cycle returns with the program counter one
    higher and with every other register, the condition flag, [halted] and
    the memory as they were.  Nothing is asked of the registers that the
    instruction names nor of its operation: no operand is read and the ALU
    is not used. *)
Theorem step_unsatisfied c counter w i :
  fetches c counter w i ->
  CondFlag_and (condition (state c)) (cond i) = 0 ->
  exists c',
    step c = (Returns tt, c') /\
    registers (state c') !! pc = Some (Reg (counter + 1)) /\
    (forall k, k <> pc ->
       registers (state c') !! k = registers (state c) !! k) /\
    condition (state c') = condition (state c) /\
    halted (state c') = halted (state c) /\
    memory (state c') = memory (state c).
Proof.
  intros Hf Hz. rewrite (step_fetches _ _ _ _ Hf), Hz. simpl.
  destruct Hf as (Hpc & _ & _).
  eexists; split; [reflexivity |]. simpl. split_and!; try done.
  - by eapply lookup_put_eq.
  - intros k Hk. by apply lookup_put_ne.
Qed.

(** C4: in a satisfied LOAD or STORE the address is the value of the first
    source register plus the value of the second plus the offset.  STORE
    puts at that address the value that the target register holds when the
    store is made, that is once the program counter has been advanced, and
    changes nothing else after the advance.  LOAD puts the word at that
    address into the cell of the target register. *)
Theorem step_load_store c counter w i l r :
  fetches c counter w i ->
  satisfied c i ->
  reg_value (registers (state c)) (reg_src1 i) = Some l ->
  reg_value (registers (state c)) (reg_src2 i) = Some r ->
  (op i = STORE ->
   forall v m,
     reg_value (registers (state (advanced c counter))) (reg_target i) = Some v ->
     Memory_put (memory (state c)) (l + r + offset i) v = Some m ->
     exists c',
       step c = (Returns tt, c') /\
       memory (state c') = m /\
       registers (state c') = registers (state (advanced c counter))) /\
  (op i = LOAD ->
   forall t v,
     py_index (length (registers (state c))) (reg_target i) = Some t ->
     Memory_get (memory (state c)) (l + r + offset i) = Some v ->
     exists c',
       step c = (Returns tt, c') /\
       registers (state c') =
         alter (Register_put v) t (registers (state (advanced c counter))) /\
       (registers (state c) !! t <> Some ZeroReg ->
        registers (state c') !! t = Some (Reg v)) /\
       memory (state c') = memory (state c)).
Proof.
  intros Hf Hs Hl Hr.
  destruct (step_satisfied _ _ _ _ _ _ Hf Hs Hl Hr) as (a & f & Ha & ->).
  split; intros Ho.
  - intros v m Hv Hm.
    apply ALU_exec_address in Ha as ->; [| by right].
    rewrite Z.add_assoc.
    erewrite apply_op_STORE; [| done | exact Hv | exact Hm].
    eexists; split; [reflexivity |]. done.
  - intros t v Ht Hv.
    apply ALU_exec_address in Ha as ->; [| by left].
    rewrite Z.add_assoc.
    erewrite apply_op_LOAD; [| done | | exact Hv].
    2: { simpl. by rewrite length_alter. }
    eexists; split; [reflexivity |]. simpl. split_and!; try done.
    intros Hnz. apply py_index_lt in Ht.
    destruct (lookup_lt_is_Some_2 _ _ Ht) as [[x |] Hx]; [| done].
    rewrite list_lookup_alter_eq.
    destruct (decide (t = pc)) as [-> | Hne].
    + by rewrite list_lookup_alter_eq, Hx.
    + by rewrite list_lookup_alter_ne, Hx.
Qed.
(** C5: a satisfied ADD, SUB, MUL or DIV puts the result of the ALU into
    the cell of the target register (which then holds it, unless that cell
    is the zero register) and makes the flag of the ALU the condition flag;
    a cycle that fetches a LOAD, a STORE or a HALT ends with the condition
    flag it started with, satisfied or not, returning or not. *)
Theorem step_condition_flag c counter w i :
  fetches c counter w i ->
  (is_arith (op i) = true ->
   satisfied c i ->
   forall l r t,
     reg_value (registers (state c)) (reg_src1 i) = Some l ->
     reg_value (registers (state c)) (reg_src2 i) = Some r ->
     py_index (length (registers (state c))) (reg_target i) = Some t ->
     exists v f c',
       ALU_exec (op i) l (r + offset i) = Some (v, f) /\
       step c = (Returns tt, c') /\
       registers (state c') =
         alter (Register_put v) t (registers (state (advanced c counter))) /\
       (registers (state c) !! t <> Some ZeroReg ->
        registers (state c') !! t = Some (Reg v)) /\
       condition (state c') = f) /\
  (op i = LOAD \/ op i = STORE \/ op i = HALT ->
   condition (state (step c).2) = condition (state c)).
Proof.
  intros Hf. split.
  - intros Ho Hs l r t Hl Hr Ht.
    destruct (step_satisfied _ _ _ _ _ _ Hf Hs Hl Hr) as (v & f & Hv & ->).
    exists v, f. erewrite apply_op_arith; [| done |].
    2: { simpl. by rewrite length_alter. }
    eexists; split_and!; try done. simpl.
    intros Hnz. apply py_index_lt in Ht.
    destruct (lookup_lt_is_Some_2 _ _ Ht) as [[x |] Hx]; [| done].
    rewrite list_lookup_alter_eq.
    destruct (decide (t = pc)) as [-> | Hne].
    + by rewrite list_lookup_alter_eq, Hx.
    + by rewrite list_lookup_alter_ne, Hx.
  - intros Ho. rewrite (step_fetches _ _ _ _ Hf).
    assert (is_arith (op i) = false) as Hna
      by (by destruct Ho as [-> | [-> | ->]]).
    change (condition (state c))
      with ((condition ∘ state) (notified c counter w i)) at 2.
    case_match.
    + apply (keeps_execute (condition ∘ state));
        [done | intros; by apply keeps_memory_put | done | by rewrite Hna].
    + done.
Qed.

(** C6: a satisfied HALT sets [halted] and leaves the program counter one
    past the address of the HALT; the loop of [run], when it makes that
    call of [step], returns right after it.  It makes the call at once
    without single-step mode and, in single-step mode, once [input] has
    returned; if [input] raises or never returns, there is no such call. *)
Theorem step_halt c counter w i :
  fetches c counter w i ->
  satisfied c i ->
  op i = HALT ->
  is_Some (reg_value (registers (state c)) (reg_src1 i)) ->
  is_Some (reg_value (registers (state c)) (reg_src2 i)) ->
  exists c',
    step c = (Returns tt, c') /\
    halted (state c') = true /\
    registers (state c') !! pc = Some (Reg (counter + 1)) /\
    (halted (state c) = false ->
     forall fuel single_step n,
       run_loop (S fuel) single_step n c =
         match pause single_step n with
         | Line_read => Some (Returns (n + 1), c')
         | Input_raises e => Some (Raises e, c)
         | No_reply => None
         end).
Proof.
  intros Hf Hs Ho [l Hl] [r Hr].
  destruct (step_satisfied _ _ _ _ _ _ Hf Hs Hl Hr) as (v & f & _ & Hstep).
  rewrite (apply_op_HALT _ _ _ _ Ho) in Hstep.
  eexists; split; [exact Hstep |]. simpl. split_and!; try done.
  - destruct Hf as (Hpc & _ & _). by eapply lookup_put_eq.
  - intros Hrun fuel single_step n. rewrite Hrun.
    destruct (pause single_step n); [| done..].
    rewrite Hstep. by apply run_loop_halted.
Qed.

(** C8: the listeners receive the event of the cycle, one each, and the event
    carries the program counter, the word and the instruction of the fetch
    together with the CPU state of before the cycle: whatever the cycle
    does afterwards, returning or raising, it does on a CPU whose listeners
    have already been notified, and the event shows none of it. *)
Theorem step_publishes_first c counter w i :
  fetches c counter w i ->
  listeners (step c).2 =
    (fun l => l ++ [mkCPUStep (state c) counter w i]) <$> listeners c /\
  step c =
    (if CondFlag_bool (CondFlag_and (condition (state c)) (cond i))
     then execute counter i
     else cell_put pc (counter + 1))
      (mkCPU (state c)
         ((fun l => l ++ [mkCPUStep (state c) counter w i]) <$> listeners c)).
Proof.
  intros Hf. split; [| by apply step_fetches].
  rewrite (step_fetches _ _ _ _ Hf).
  change (_ <$> listeners c) with (listeners (notified c counter w i)).
  case_match; [| done].
  apply keeps_execute; [done | intros; by apply keeps_memory_put | done..].
Qed.

(** C10: a satisfied ADD, SUB, MUL or DIV whose target is register 15
    leaves the result of the ALU in the program counter: the result
    overwrites the advanced counter. *)
Theorem step_arith_jump c counter w i l r :
  fetches c counter w i ->
  satisfied c i ->
  is_arith (op i) = true ->
  reg_target i = 15 ->
  reg_value (registers (state c)) (reg_src1 i) = Some l ->
  reg_value (registers (state c)) (reg_src2 i) = Some r ->
  exists v f c',
    ALU_exec (op i) l (r + offset i) = Some (v, f) /\
    step c = (Returns tt, c') /\
    registers (state c') !! pc = Some (Reg v).
Proof.
  intros Hf Hs Ho Ht Hl Hr.
  destruct (step_satisfied _ _ _ _ _ _ Hf Hs Hl Hr) as (v & f & Hv & ->).
  destruct Hf as (Hpc & _ & _).
  exists v, f. erewrite (apply_op_arith _ _ _ _ pc); [| done |].
  2: { simpl. rewrite length_alter, Ht. apply py_index_nonneg.
       apply lookup_lt_Some in Hpc. unfold pc in Hpc. lia. }
  eexists; split_and!; try done. simpl.
  rewrite list_lookup_alter_eq. by erewrite lookup_put_eq.
Qed.
End step_claims.

(** ** The shape of the register list is an invariant *)

Section wf_facts.
Context `{Collaborators}.

Lemma wf_registers_inv (rs : list Register) :
  wf_registers rs = true ->
  length rs = 16%nat /\ rs !! 0%nat = Some ZeroReg /\
  forall k, (0 < k < 16)%nat -> exists v, rs !! k = Some (Reg v).
Proof.
  destruct rs as [| [v |] tl]; simpl; try discriminate.
  intros [Hlen Hall]%andb_true_iff. apply Nat.eqb_eq in Hlen.
  split_and!; [lia | done |]. intros [| k] Hk; [lia |]. simpl.
  destruct (lookup_lt_is_Some_2 tl k) as [r Hr]; [lia |].
  rewrite forallb_forall in Hall.
  specialize (Hall r (proj1 (list_elem_of_In _ _) (list_elem_of_lookup_2 _ _ _ Hr))).
  destruct r; [eauto | discriminate].
Qed.

Lemma wf_registers_pc (rs : list Register) :
  wf_registers rs = true -> exists counter, rs !! pc = Some (Reg counter).
Proof. intros (_ & _ & Hk)%wf_registers_inv. apply Hk. unfold pc. lia. Qed.

(** In a well-formed list every register index of Python in the range
    [-16 .. 15] can be read. *)
Lemma wf_reg_value (rs : list Register) (i : Z) :
  wf_registers rs = true -> -16 <= i < 16 -> is_Some (reg_value rs i).
Proof.
  intros (Hlen & _ & _)%wf_registers_inv Hi. unfold reg_value.
  destruct (py_index (length rs) i) as [k |] eqn:Hk.
  - simpl. apply py_index_lt in Hk.
    destruct (lookup_lt_is_Some_2 rs k Hk) as [r ->]. by eexists.
  - unfold py_index in Hk. rewrite Hlen in Hk.
    destruct (Z.leb_spec 0 i); destruct (Z.ltb_spec i (Z.of_nat 16));
      destruct (Z.leb_spec (- Z.of_nat 16) i); try discriminate; lia.
Qed.

Lemma forallb_is_Reg_put (v : Z) (k : nat) (rs : list Register) :
  forallb is_Reg (alter (Register_put v) k rs) = forallb is_Reg rs.
Proof.
  revert k. induction rs as [| r rs IH]; intros [| k]; simpl; try done.
  - by destruct r.
  - f_equal. apply IH.
Qed.

Lemma wf_registers_put (v : Z) (k : nat) (rs : list Register) :
  wf_registers (alter (Register_put v) k rs) = wf_registers rs.
Proof.
  destruct rs as [| [x |] tl]; destruct k as [| k]; simpl; try done.
  f_equal; [f_equal; apply length_alter | apply forallb_is_Reg_put].
Qed.

Lemma wf_registers_init (m : Memory) :
  wf_registers (registers (state (CPU_init m))) = true.
Proof. reflexivity. Qed.

(** Whatever every primitive that changes the CPU keeps, [step] keeps. *)
Lemma keeps_step {X} (f : CPU -> X) :
  (forall k v, keeps f (cell_put k v)) ->
  (forall a v, keeps f (memory_put a v)) ->
  keeps f (modify (set_halted true)) ->
  (forall g, keeps f (modify (set_condition g))) ->
  (forall counter w i, keeps f (notify_all counter w i)) ->
  keeps f step.
Proof.
  intros Hcell Hmem Hhalt Hcond Hnotify. unfold step.
  apply keeps_bind; [apply keeps_cell_get | intros counter].
  apply keeps_bind; [apply keeps_memory_get | intros w].
  apply keeps_bind; [apply keeps_do_decode | intros i].
  apply keeps_bind; [apply Hnotify | intros _].
  apply keeps_bind; [apply keeps_gets | intros flag]. simpl.
  case_match; [| apply Hcell]. apply keeps_execute; auto.
Qed.

Lemma wf_registers_step :
  keeps (fun c => wf_registers (registers (state c))) step.
Proof.
  apply keeps_step; try done.
  - intros k v c'. simpl. apply wf_registers_put.
  - intros a v. by apply keeps_memory_put.
Qed.
End wf_facts.

(** ** The loop of [run] *)

Section run_facts.
Context `{Collaborators}.

(** The loop returns exactly when stepping until [halted] gets there within
    the fuel and [input] has returned at every pause on the way, and it has
    then counted the steps. *)
Lemma run_loop_runs_to fuel single_step k c n c' :
  run_loop fuel single_step k c = Some (Returns n, c') <->
  exists j, (j <= fuel)%nat /\ n = k + Z.of_nat j /\ runs_to c j c' /\
    forall m, (m < j)%nat -> pause single_step (k + Z.of_nat m) = Line_read.
Proof.
  split.
  - revert k c. induction fuel as [| fuel IH]; intros k c.
    + simpl. destruct (halted (state c)) eqn:Hh; [| done].
      intros [= <- <-]. exists 0%nat. split_and!; [lia.. | | lia].
      by apply runs_halted.
    + destruct (halted (state c)) eqn:Hh.
      { rewrite (run_loop_halted _ _ _ _ Hh).
        intros [= <- <-]. exists 0%nat. split_and!; [lia.. | | lia].
        by apply runs_halted. }
      rewrite (run_loop_S _ _ _ _ Hh).
      destruct (pause single_step k) eqn:Hp; [| done..].
      destruct (step c) as [[[] | e] c1] eqn:Hstep; [| done].
      intros (j & Hj & -> & Hruns & Hack)%IH. exists (S j).
      split_and!; [lia.. | by eapply runs_step |].
      intros [| m] Hm; [by rewrite Z.add_0_r |].
      replace (k + Z.of_nat (S m)) with (k + 1 + Z.of_nat m) by lia.
      apply Hack. lia.
  - intros (j & Hj & -> & Hruns & Hack). revert fuel k Hj Hack.
    induction Hruns as [c Hh | c c1 j c' Hh Hstep _ IH]; intros fuel k Hj Hack.
    + rewrite Z.add_0_r. by apply run_loop_halted.
    + destruct fuel as [| fuel]; [lia |].
      rewrite (run_loop_S _ _ _ _ Hh).
      pose proof (Hack 0%nat ltac:(lia)) as Hack0.
      rewrite Z.add_0_r in Hack0. rewrite Hack0, Hstep, IH; [| lia |].
      * do 3 f_equal. lia.
      * intros m Hm.
        replace (k + 1 + Z.of_nat m) with (k + Z.of_nat (S m)) by lia.
        apply Hack. lia.
Qed.

Lemma run_reset_Returns from_addr c :
  run_reset from_addr c =
    (Returns tt,
     set_registers (alter (Register_put from_addr) pc (registers (state c)))
       (set_halted false c)).
Proof. reflexivity. Qed.

(** C7: [run] first makes [halted] false and the program counter
    [from_addr], touching no other register, nor the condition flag, nor
    the memory; from the CPU so reset it calls [step] again and again until
    [halted] is true, and returns then: it returns after [j] calls exactly
    when [j] steps from the reset CPU reach a halted CPU, none before, and
    [input] has returned at the pause before each of them (which asks
    nothing without single-step mode). *)
Theorem run_resets_then_steps c from_addr single_step counter :
  registers (state c) !! pc = Some (Reg counter) ->
  exists c0,
    run_reset from_addr c = (Returns tt, c0) /\
    halted (state c0) = false /\
    registers (state c0) !! pc = Some (Reg from_addr) /\
    (forall k, k <> pc ->
       registers (state c0) !! k = registers (state c) !! k) /\
    condition (state c0) = condition (state c) /\
    memory (state c0) = memory (state c) /\
    forall fuel n c',
      run fuel from_addr single_step c = Some (Returns n, c') <->
      exists j, (j <= fuel)%nat /\ n = Z.of_nat j /\ runs_to c0 j c' /\
        forall m, (m < j)%nat -> pause single_step (Z.of_nat m) = Line_read.
Proof.
  intros Hpc. eexists. split; [apply run_reset_Returns |]. simpl.
  split_and!; try done.
  - by eapply lookup_put_eq.
  - intros k Hk. by apply lookup_put_ne.
  - intros fuel n c'. unfold run. rewrite run_reset_Returns.
    by rewrite run_loop_runs_to.
Qed.

(** C9: whatever [halted] is when [run] is called, [run] calls [step]: with
    no iteration allowed it does not complete; [run(from_addr)], that is
    without single-step mode, with at least one iteration allowed, starts by
    a call of [step] on the reset CPU; in single-step mode the prompt comes
    first and the call of [step] follows when [input] returns; and whenever
    [run] returns it has counted at least one step. *)
Theorem run_steps_at_least_once c from_addr single_step :
  run 0 from_addr single_step c = None /\
  (forall fuel,
     run (S fuel) from_addr false c =
       match step (run_reset from_addr c).2 with
       | (Returns _, c1) => run_loop fuel false 1 c1
       | (Raises e, c1) => Some (Raises e, c1)
       end) /\
  (forall fuel,
     run (S fuel) from_addr single_step c =
       match pause single_step 0 with
       | Line_read =>
           match step (run_reset from_addr c).2 with
           | (Returns _, c1) => run_loop fuel single_step 1 c1
           | (Raises e, c1) => Some (Raises e, c1)
           end
       | Input_raises e => Some (Raises e, (run_reset from_addr c).2)
       | No_reply => None
       end) /\
  (forall fuel n c',
     run fuel from_addr single_step c = Some (Returns n, c') -> 1 <= n).
Proof.
  split_and!.
  - reflexivity.
  - intros fuel. unfold run. rewrite run_reset_Returns.
    by rewrite run_loop_S.
  - intros fuel. unfold run. rewrite run_reset_Returns.
    by rewrite run_loop_S.
  - intros fuel n c'. unfold run. rewrite run_reset_Returns.
    intros (j & _ & -> & Hruns & _)%run_loop_runs_to.
    inversion Hruns; simplify_eq/=; lia.
Qed.
End run_facts.

(** ** The theorems at work on the concrete machine *)

(** With the flag at P, a HALT predicated on M is skipped, though it names
    registers that do not exist. *)
Lemma step_unsatisfied_witness :
  fetches Demo.at_skip 1 8 Demo.skip_instr /\
  exists c',
    step Demo.at_skip = (Returns tt, c') /\
    registers (state c') !! pc = Some (Reg 2) /\
    (forall k, k <> pc ->
       registers (state c') !! k = registers (state Demo.at_skip) !! k) /\
    condition (state c') = condition (state Demo.at_skip) /\
    halted (state c') = halted (state Demo.at_skip) /\
    memory (state c') = memory (state Demo.at_skip).
Proof.
  assert (fetches Demo.at_skip 1 8 Demo.skip_instr) as Hf by (by vm_compute).
  split; [exact Hf |].
  apply (step_unsatisfied Demo.at_skip 1 8 Demo.skip_instr Hf). reflexivity.
Defined.

(** STORE r1 at 0 + 0 + 100 with r1 = 5, and LOAD r3 from there. *)
Lemma step_load_store_witness :
  (exists c',
     step Demo.at_store = (Returns tt, c') /\
     memory (state c') = <[100%nat := 5]> (memory (state Demo.at_store)) /\
     registers (state c') = registers (state (advanced Demo.at_store 1))) /\
  (exists c',
     step Demo.at_load = (Returns tt, c') /\
     registers (state c') =
       alter (Register_put 5) 3%nat (registers (state (advanced Demo.at_load 2))) /\
     (registers (state Demo.at_load) !! 3%nat <> Some ZeroReg ->
      registers (state c') !! 3%nat = Some (Reg 5)) /\
     memory (state c') = memory (state Demo.at_load)).
Proof.
  split.
  - eapply (proj1 (step_load_store Demo.at_store 1 1 Demo.store_instr 0 0
               ltac:(by vm_compute) ltac:(by vm_compute)
               ltac:(reflexivity) ltac:(reflexivity)));
      reflexivity.
  - eapply (proj2 (step_load_store Demo.at_load 2 4 Demo.load_instr 0 0
               ltac:(by vm_compute) ltac:(by vm_compute)
               ltac:(reflexivity) ltac:(reflexivity)));
      reflexivity.
Defined.

(** ADD r1 := 0 + 0 + 5 sets the flag to P; the STORE after it keeps P. *)
Lemma step_condition_flag_witness :
  (exists v f c',
     ALU_exec ADD 0 (0 + 5) = Some (v, f) /\
     step (Demo.boot [0; 1; 2]) = (Returns tt, c') /\
     registers (state c') =
       alter (Register_put v) 1%nat
         (registers (state (advanced (Demo.boot [0; 1; 2]) 0))) /\
     (registers (state (Demo.boot [0; 1; 2])) !! 1%nat <> Some ZeroReg ->
      registers (state c') !! 1%nat = Some (Reg v)) /\
     condition (state c') = f) /\
  condition (state (step Demo.at_store).2) = condition (state Demo.at_store).
Proof.
  split.
  - eapply (proj1 (step_condition_flag (Demo.boot [0; 1; 2]) 0 0 Demo.add_instr
               ltac:(by vm_compute)));
      solve [reflexivity | by vm_compute].
  - apply (proj2 (step_condition_flag Demo.at_store 1 1 Demo.store_instr
              ltac:(by vm_compute))).
    right; left; reflexivity.
Defined.

(** The HALT at address 2 halts the CPU with the program counter at 3. *)
Lemma step_halt_witness :
  exists c',
    step Demo.at_halt = (Returns tt, c') /\
    halted (state c') = true /\
    registers (state c') !! pc = Some (Reg 3) /\
    (halted (state Demo.at_halt) = false ->
     forall fuel single_step n,
       run_loop (S fuel) single_step n Demo.at_halt =
         match pause single_step n with
         | Line_read => Some (Returns (n + 1), c')
         | Input_raises e => Some (Raises e, Demo.at_halt)
         | No_reply => None
         end).
Proof.
  apply (step_halt Demo.at_halt 2 2 Demo.halt_instr);
    solve [reflexivity | by vm_compute | by eexists].
Defined.

(** A second [run], in single-step mode from address 1, of the CPU that the
    first run has left halted. *)
Lemma run_resets_then_steps_witness :
  halted (state Demo.at_end) = true /\
  exists c0,
    run_reset 1 Demo.at_end = (Returns tt, c0) /\
    halted (state c0) = false /\
    registers (state c0) !! pc = Some (Reg 1) /\
    (forall k, k <> pc ->
       registers (state c0) !! k = registers (state Demo.at_end) !! k) /\
    condition (state c0) = condition (state Demo.at_end) /\
    memory (state c0) = memory (state Demo.at_end) /\
    forall fuel n c',
      run fuel 1 true Demo.at_end = Some (Returns n, c') <->
      exists j, (j <= fuel)%nat /\ n = Z.of_nat j /\ runs_to c0 j c' /\
        forall m, (m < j)%nat -> pause true (Z.of_nat m) = Line_read.
Proof.
  split; [reflexivity |].
  apply (run_resets_then_steps Demo.at_end 1 true 3). reflexivity.
Defined.

(** The one listener of the booted CPU receives the event of the first
    cycle. *)
Lemma step_publishes_first_witness :
  listeners (step (Demo.boot [0; 1; 2])).2 =
    [[mkCPUStep (state (Demo.boot [0; 1; 2])) 0 0 Demo.add_instr]].
Proof.
  apply (proj1 (step_publishes_first (Demo.boot [0; 1; 2]) 0 0 Demo.add_instr
            ltac:(by vm_compute))).
Defined.

(** ADD r15 := r1 + r0 + 40 with r1 = 5 jumps to address 45. *)
Lemma step_arith_jump_witness :
  exists v f c',
    ALU_exec ADD 5 (0 + 40) = Some (v, f) /\
    step Demo.at_jump = (Returns tt, c') /\
    registers (state c') !! pc = Some (Reg v).
Proof.
  apply (step_arith_jump Demo.at_jump 1 7 Demo.jump_instr 5 0);
    solve [reflexivity | by vm_compute].
Defined.

(** ** The cases of a cycle *)

Section cycle_cases.
Context `{Collaborators}.

(** A cycle either raises before it has touched anything, or has fetched and
    decoded an instruction and published its event. *)
Lemma step_cases c :
  (exists e, step c = (Raises e, c)) \/
  (exists r w i,
     registers (state c) !! pc = Some r /\
     Memory_get (memory (state c)) (Register_get r) = Some w /\
     decode w = Some i /\
     step c =
       (if CondFlag_bool (CondFlag_and (condition (state c)) (cond i))
        then execute (Register_get r) i
        else cell_put pc (Register_get r + 1))
         (notified c (Register_get r) w i)).
Proof.
  unfold step.
  destruct (registers (state c) !! pc) as [r |] eqn:Hpc.
  2: { left. exists IndexError. apply bind_Raises. unfold cell_get.
       by rewrite Hpc. }
  rewrite (bind_Returns _ _ _ _ _ (cell_get_Returns _ _ _ Hpc)).
  destruct (Memory_get (memory (state c)) (Register_get r)) as [w |] eqn:Hw.
  2: { left. exists AddressError. apply bind_Raises. unfold memory_get.
       by rewrite Hw. }
  rewrite (bind_Returns _ _ _ _ _ (memory_get_Returns _ _ _ Hw)).
  destruct (decode w) as [i |] eqn:Hi.
  2: { left. exists DecodeError. apply bind_Raises. unfold do_decode.
       by rewrite Hi. }
  rewrite (bind_Returns _ _ _ _ _ (do_decode_Returns _ _ _ Hi)).
  right. by exists r, w, i.
Qed.

(** A register that cannot be read raises [IndexError] and changes
    nothing. *)
Lemma read_register_error {B} (i : Z) (k : nat -> Z -> Exec B) c :
  reg_value (registers (state c)) i = None ->
  (register_at i ≫= fun n => cell_get n ≫= k n) c = (Raises IndexError, c).
Proof.
  unfold reg_value. intros Hv.
  destruct (py_index (length (registers (state c))) i) as [n |] eqn:Hn.
  - simpl in Hv.
    rewrite (bind_Returns _ _ _ _ _ (register_at_Returns _ _ _ Hn)).
    apply bind_Raises. unfold cell_get.
    by destruct (registers (state c) !! n).
  - apply bind_Raises. unfold register_at. by rewrite Hn.
Qed.

(** The body of a satisfied cycle either fails to read an operand, or goes
    on to the operation with the program counter advanced. *)
Lemma execute_cases counter i c :
  ((reg_value (registers (state c)) (reg_src1 i) = None \/
    reg_value (registers (state c)) (reg_src2 i) = None) /\
   execute counter i c = (Raises IndexError, c)) \/
  (exists l r v f,
     reg_value (registers (state c)) (reg_src1 i) = Some l /\
     reg_value (registers (state c)) (reg_src2 i) = Some r /\
     ALU_exec (op i) l (r + offset i) = Some (v, f) /\
     execute counter i c = apply_op i v f (advanced c counter)).
Proof.
  destruct (reg_value (registers (state c)) (reg_src1 i)) as [l |] eqn:Hl.
  2: { left. split; [by left |]. unfold execute. cbv zeta.
       by apply read_register_error. }
  destruct (reg_value (registers (state c)) (reg_src2 i)) as [r |] eqn:Hr.
  2: { left. split; [by right |]. unfold execute. cbv zeta.
       edestruct (read_register (B:=unit) (reg_src1 i) l) as (n1 & _ & ->);
         [done |].
       by apply read_register_error. }
  right. destruct (execute_operands counter i c l r Hl Hr) as (v & f & Hv & He).
  by exists l, r, v, f.
Qed.

(** The operation of an arithmetic instruction whose target is no register
    raises before it has written anything. *)
Lemma apply_op_arith_error i v f c :
  is_arith (op i) = true ->
  py_index (length (registers (state c))) (reg_target i) = None ->
  apply_op i v f c = (Raises IndexError, c).
Proof.
  intros Ho Ht. unfold apply_op.
  destruct (op i); try discriminate Ho;
    unfold mbind, Exec_bind, bind, when, register_at, ret; simpl;
    by rewrite Ht.
Qed.

(** What the cycle keeps when only the operation at hand can change it. *)
Section keeps_by_op.
Context {X} (f : CPU -> X) (i : Instruction).
Hypothesis Hcell : forall k v, keeps f (cell_put k v).
Hypothesis Hmem : op i = STORE -> forall a v, keeps f (memory_put a v).
Hypothesis Hhalt : op i = HALT -> keeps f (modify (set_halted true)).
Hypothesis Hcond :
  is_arith (op i) = true -> forall g, keeps f (modify (set_condition g)).

Lemma keeps_apply_op_by_op v g : keeps f (apply_op i v g).
Proof.
  unfold apply_op.
  apply keeps_bind; [| intros _].
  { case_bool_decide as Ho; [| apply keeps_ret]. simpl.
    apply keeps_bind; [apply keeps_register_at | intros t].
    apply keeps_bind; [apply keeps_cell_get | intros x]. by apply Hmem. }
  apply keeps_bind; [| intros _].
  { case_bool_decide as Ho; [| apply keeps_ret]. simpl.
    apply keeps_bind; [apply keeps_register_at | intros t].
    apply keeps_bind; [apply keeps_memory_get | intros x]. apply Hcell. }
  apply keeps_bind; [| intros _].
  { case_bool_decide as Ho; [| apply keeps_ret]. by apply Hhalt. }
  destruct (is_arith (op i)); [| apply keeps_ret]. simpl.
  apply keeps_bind; [apply keeps_register_at | intros t].
  apply keeps_bind; [apply Hcell | intros _]. by apply Hcond.
Qed.

Lemma keeps_execute_by_op counter : keeps f (execute counter i).
Proof.
  unfold execute. cbv zeta.
  apply keeps_bind; [apply keeps_register_at | intros ?].
  apply keeps_bind; [apply keeps_cell_get | intros ?].
  apply keeps_bind; [apply keeps_register_at | intros ?].
  apply keeps_bind; [apply keeps_cell_get | intros ?].
  apply keeps_bind; [apply keeps_alu_exec | intros [v g]].
  apply keeps_bind; [apply Hcell | intros _]. apply keeps_apply_op_by_op.
Qed.
End keeps_by_op.
End cycle_cases.

(** ** Further properties of the ALU and of one cycle *)

Section more_ALU.
Context `{Collaborators}.

(** X1: [exec] returns a pair for every operation code and every pair of
    operands, never [None]: either the value of the table with the flag of
    its sign, or [(0, V)], and the latter only for a DIV by zero. *)
Theorem ALU_exec_always_pair (o : OpCode) (a b : Z) :
  exists v f,
    ALU_exec o a b = Some (v, f) /\
    ((ALU_OPS o a b = Returns v /\ sign_flag v f) \/
     (o = DIV /\ b = 0 /\ v = 0 /\ f = CondFlag_V)).
Proof.
  destruct (ALU_OPS o a b) as [v | e] eqn:Hv.
  - destruct (ALU_exec_returns o a b v Hv) as (f & Hf & Hs).
    exists v, f. split; [done |]. by left.
  - exists 0, CondFlag_V. split; [unfold ALU_exec; by rewrite Hv |]. right.
    destruct o; try discriminate Hv. simpl in Hv.
    destruct (Z.eqb_spec b 0); [done | discriminate].
Qed.

(** The flag of the ALU is one of M, Z, P and V. *)
Lemma ALU_exec_flag o a b v f : ALU_exec o a b = Some (v, f) -> ALU_flag f.
Proof.
  unfold ALU_exec, ALU_flag. intros Hv.
  repeat case_match; simplify_eq; auto.
Qed.
End more_ALU.

Section more_step.
Context `{Collaborators}.

(** X2: when the memory has no word at the address in the program counter,
    the cycle raises the address error and the CPU is as it was: no event
    has been published and the program counter has not moved. *)
Theorem step_fetch_error c counter :
  registers (state c) !! pc = Some (Reg counter) ->
  Memory_get (memory (state c)) counter = None ->
  step c = (Raises AddressError, c).
Proof.
  intros Hpc Hw. unfold step.
  rewrite (bind_Returns _ _ _ _ _ (cell_get_Returns _ _ _ Hpc)). simpl.
  apply bind_Raises. unfold memory_get. by rewrite Hw.
Qed.

(** X3: when the fetched word is no instruction, the cycle raises the decode
    error and the CPU is as it was, no event published. *)
Theorem step_decode_error c counter w :
  registers (state c) !! pc = Some (Reg counter) ->
  Memory_get (memory (state c)) counter = Some w ->
  decode w = None ->
  step c = (Raises DecodeError, c).
Proof.
  intros Hpc Hw Hi. unfold step.
  rewrite (bind_Returns _ _ _ _ _ (cell_get_Returns _ _ _ Hpc)). simpl.
  rewrite (bind_Returns _ _ _ _ _ (memory_get_Returns _ _ _ Hw)).
  apply bind_Raises. unfold do_decode. by rewrite Hi.
Qed.

(** X4: a satisfied instruction one of whose source registers does not
    exist raises [IndexError] once the event has been published and before
    the program counter is advanced: apart from the listeners the CPU is as
    it was. *)
Theorem step_operand_error c counter w i :
  fetches c counter w i ->
  satisfied c i ->
  reg_value (registers (state c)) (reg_src1 i) = None \/
  reg_value (registers (state c)) (reg_src2 i) = None ->
  step c = (Raises IndexError, notified c counter w i).
Proof.
  intros Hf Hs Hnone.
  rewrite (step_fetches _ _ _ _ Hf), (satisfied_bool _ _ Hs).
  destruct (execute_cases counter i (notified c counter w i))
    as [[_ He] | (l & r & v & f & Hl & Hr & _)]; [done |].
  simpl in Hl, Hr. destruct Hnone; congruence.
Qed.

Lemma apply_op_STORE_error i v f c x :
  op i = STORE ->
  reg_value (registers (state c)) (reg_target i) = Some x ->
  Memory_put (memory (state c)) v x = None ->
  apply_op i v f c = (Raises AddressError, c).
Proof.
  intros Ho (t & r & Ht & Hr & <-)%reg_value_Some Hm.
  unfold apply_op. rewrite Ho.
  unfold mbind, Exec_bind, bind, when, register_at, cell_get, memory_put; simpl.
  by rewrite Ht, Hr, Hm.
Qed.

Lemma apply_op_LOAD_error i v f c t :
  op i = LOAD ->
  py_index (length (registers (state c))) (reg_target i) = Some t ->
  Memory_get (memory (state c)) v = None ->
  apply_op i v f c = (Raises AddressError, c).
Proof.
  intros Ho Ht Hm. unfold apply_op. rewrite Ho.
  unfold mbind, Exec_bind, bind, when, register_at, memory_get; simpl.
  by rewrite Ht, Hm.
Qed.

(** X5: a satisfied STORE to an address that the memory refuses raises the
    address error with the program counter already advanced and with
    nothing else changed. *)
Theorem step_store_error c counter w i l r v :
  fetches c counter w i ->
  satisfied c i ->
  op i = STORE ->
  reg_value (registers (state c)) (reg_src1 i) = Some l ->
  reg_value (registers (state c)) (reg_src2 i) = Some r ->
  reg_value (registers (state (advanced c counter))) (reg_target i) = Some v ->
  Memory_put (memory (state c)) (l + r + offset i) v = None ->
  step c = (Raises AddressError, advanced (notified c counter w i) counter).
Proof.
  intros Hf Hs Ho Hl Hr Hv Hm.
  destruct (step_satisfied _ _ _ _ _ _ Hf Hs Hl Hr) as (a & f & Ha & ->).
  apply ALU_exec_address in Ha as ->; [| by right]. rewrite Z.add_assoc.
  by eapply apply_op_STORE_error.
Qed.

(** X6: a satisfied LOAD from an address that the memory refuses raises the
    address error with the program counter already advanced; the target
    register is not written. *)
Theorem step_load_error c counter w i l r t :
  fetches c counter w i ->
  satisfied c i ->
  op i = LOAD ->
  reg_value (registers (state c)) (reg_src1 i) = Some l ->
  reg_value (registers (state c)) (reg_src2 i) = Some r ->
  py_index (length (registers (state c))) (reg_target i) = Some t ->
  Memory_get (memory (state c)) (l + r + offset i) = None ->
  step c = (Raises AddressError, advanced (notified c counter w i) counter).
Proof.
  intros Hf Hs Ho Hl Hr Ht Hm.
  destruct (step_satisfied _ _ _ _ _ _ Hf Hs Hl Hr) as (a & f & Ha & ->).
  apply ALU_exec_address in Ha as ->; [| by left]. rewrite Z.add_assoc.
  eapply apply_op_LOAD_error; [done | | done]. simpl. by rewrite length_alter.
Qed.

(** X7: a satisfied arithmetic instruction whose target register does not
    exist raises [IndexError] with the program counter advanced; the
    condition flag keeps its old value although the ALU has computed a new
    one. *)
Theorem step_target_error c counter w i l r :
  fetches c counter w i ->
  satisfied c i ->
  is_arith (op i) = true ->
  reg_value (registers (state c)) (reg_src1 i) = Some l ->
  reg_value (registers (state c)) (reg_src2 i) = Some r ->
  py_index (length (registers (state c))) (reg_target i) = None ->
  step c = (Raises IndexError, advanced (notified c counter w i) counter).
Proof.
  intros Hf Hs Ho Hl Hr Ht.
  destruct (step_satisfied _ _ _ _ _ _ Hf Hs Hl Hr) as (a & f & Ha & ->).
  apply apply_op_arith_error; [done |]. simpl. by rewrite length_alter.
Qed.
End more_step.

Section frames.
Context `{Collaborators}.

Lemma bool_satisfied c i :
  CondFlag_bool (CondFlag_and (condition (state c)) (cond i)) = true ->
  satisfied c i.
Proof.
  unfold satisfied, CondFlag_bool. intros Hb%negb_true_iff. lia.
Qed.

(** The operation of a STORE: the memory is as it was or is the memory after
    the [put]. *)
Lemma apply_op_STORE_cases i v f c :
  op i = STORE ->
  (exists e, apply_op i v f c = (Raises e, c)) \/
  (exists x m,
     reg_value (registers (state c)) (reg_target i) = Some x /\
     Memory_put (memory (state c)) v x = Some m /\
     apply_op i v f c = (Returns tt, set_memory m c)).
Proof.
  intros Ho.
  destruct (reg_value (registers (state c)) (reg_target i)) as [x |] eqn:Hx.
  - destruct (Memory_put (memory (state c)) v x) as [m |] eqn:Hm.
    + right. exists x, m. split_and!; try done. by eapply apply_op_STORE.
    + left. exists AddressError. by eapply apply_op_STORE_error.
  - left. exists IndexError. unfold apply_op. rewrite Ho. simpl.
    apply bind_Raises. by apply read_register_error.
Qed.

(** X8: the memory after a cycle is the memory before it, unless the cycle
    has fetched a STORE whose predicate is satisfied and has returned; the
    memory is then the result of one [put]. *)
Theorem step_memory_only_by_STORE c :
  memory (state (step c).2) = memory (state c) \/
  (exists r w i a v,
     registers (state c) !! pc = Some r /\
     Memory_get (memory (state c)) (Register_get r) = Some w /\
     decode w = Some i /\ op i = STORE /\ satisfied c i /\
     (step c).1 = Returns tt /\
     Memory_put (memory (state c)) a v = Some (memory (state (step c).2))).
Proof.
  destruct (step_cases c) as [[e ->] | (r & w & i & Hpc & Hw & Hi & ->)];
    [by left |].
  destruct (CondFlag_bool _) eqn:Hb; [| by left].
  apply bool_satisfied in Hb.
  destruct (decide (op i = STORE)) as [Ho | Ho].
  - destruct (execute_cases (Register_get r) i (notified c (Register_get r) w i))
      as [[_ ->] | (l & x & v & f & _ & _ & _ & ->)]; [by left |].
    destruct (apply_op_STORE_cases i v f
                (advanced (notified c (Register_get r) w i) (Register_get r)) Ho)
      as [[e ->] | (y & m & _ & Hm & ->)]; [by left |].
    right. exists r, w, i, v, y. by split_and!.
  - left.
    refine (keeps_execute_by_op (memory ∘ state) i _ _ _ _ _
              (notified c (Register_get r) w i)); done.
Qed.

(** The halted flag after a cycle. *)
Lemma step_halted_cases c :
  halted (state (step c).2) = halted (state c) \/
  (exists r w i,
     registers (state c) !! pc = Some r /\
     Memory_get (memory (state c)) (Register_get r) = Some w /\
     decode w = Some i /\ op i = HALT /\ satisfied c i /\
     step c =
       (Returns tt,
        set_halted true
          (advanced (notified c (Register_get r) w i) (Register_get r)))).
Proof.
  destruct (step_cases c) as [[e ->] | (r & w & i & Hpc & Hw & Hi & Hstep)];
    [by left |].
  destruct (CondFlag_bool _) eqn:Hb; [| left; by rewrite Hstep].
  apply bool_satisfied in Hb.
  destruct (decide (op i = HALT)) as [Ho | Ho].
  - destruct (execute_cases (Register_get r) i (notified c (Register_get r) w i))
      as [[_ He] | (l & x & v & f & _ & _ & _ & He)];
      rewrite He in Hstep; [left; by rewrite Hstep |].
    rewrite (apply_op_HALT _ _ _ _ Ho) in Hstep.
    right. by exists r, w, i.
  - left. rewrite Hstep.
    refine (keeps_execute_by_op (halted ∘ state) i _ _ _ _ _
              (notified c (Register_get r) w i)); try done.
    intros; by apply keeps_memory_put.
Qed.

(** X9: a cycle never clears [halted], and it sets [halted] only by a HALT
    that it has fetched with its predicate satisfied; the cycle then
    returns with the program counter advanced by one. *)
Theorem step_halted_only_by_HALT c :
  (halted (state c) = true -> halted (state (step c).2) = true) /\
  (halted (state (step c).2) <> halted (state c) ->
   exists r w i,
     registers (state c) !! pc = Some r /\
     Memory_get (memory (state c)) (Register_get r) = Some w /\
     decode w = Some i /\ op i = HALT /\ satisfied c i /\
     (step c).1 = Returns tt /\
     registers (state (step c).2) =
       alter (Register_put (Register_get r + 1)) pc (registers (state c))).
Proof.
  destruct (step_halted_cases c)
    as [Hsame | (r & w & i & Hpc & Hw & Hi & Ho & Hs & Hstep)].
  - split; [congruence | done].
  - rewrite Hstep. split; [done |]. intros _. by exists r, w, i.
Qed.

(** The condition flag after a cycle: the old one, or a flag of the ALU. *)
Lemma step_condition_cases c :
  condition (state (step c).2) = condition (state c) \/
  ALU_flag (condition (state (step c).2)).
Proof.
  destruct (step_cases c) as [[e ->] | (r & w & i & Hpc & Hw & Hi & ->)];
    [by left |].
  destruct (CondFlag_bool _) eqn:Hb; [| by left].
  destruct (is_arith (op i)) eqn:Ho.
  - destruct (execute_cases (Register_get r) i (notified c (Register_get r) w i))
      as [[_ ->] | (l & x & v & f & _ & _ & Hv & ->)]; [by left |].
    destruct (py_index
                (length (registers (state
                   (advanced (notified c (Register_get r) w i) (Register_get r)))))
                (reg_target i)) as [t |] eqn:Ht.
    + rewrite (apply_op_arith _ _ _ _ _ Ho Ht). right. simpl.
      by eapply ALU_exec_flag.
    + rewrite (apply_op_arith_error _ _ _ _ Ho Ht). by left.
  - left.
    refine (keeps_execute_by_op (condition ∘ state) i _ _ _ _ _
              (notified c (Register_get r) w i)); try done.
    + intros; by apply keeps_memory_put.
    + by rewrite Ho.
Qed.

(** The listeners after a cycle: they have received one event, the same for
    all, when the cycle returns, and at most one when it raises. *)
Lemma step_listeners_cases c :
  (exists e, (step c).1 = Raises e /\ listeners (step c).2 = listeners c) \/
  (exists ev, delivered [ev] (listeners c) (listeners (step c).2)).
Proof.
  destruct (step_cases c) as [[e ->] | (r & w & i & Hpc & Hw & Hi & ->)].
  - left. by exists e.
  - right. exists (step_event c (Register_get r) w i). unfold delivered.
    change (_ <$> listeners c)
      with (listeners (notified c (Register_get r) w i)).
    case_match; [| done].
    apply (keeps_execute_by_op listeners); try done.
    intros; by apply keeps_memory_put.
Qed.
End frames.

Section more_cycles.
Context `{Collaborators}.

(** A satisfied arithmetic instruction whose operands and target exist. *)
Lemma step_arith c counter w i l r t :
  fetches c counter w i ->
  satisfied c i ->
  is_arith (op i) = true ->
  reg_value (registers (state c)) (reg_src1 i) = Some l ->
  reg_value (registers (state c)) (reg_src2 i) = Some r ->
  py_index (length (registers (state c))) (reg_target i) = Some t ->
  exists v f,
    ALU_exec (op i) l (r + offset i) = Some (v, f) /\
    step c =
      (Returns tt,
       set_condition f
         (set_registers
            (alter (Register_put v) t
               (alter (Register_put (counter + 1)) pc (registers (state c))))
            (notified c counter w i))).
Proof.
  intros Hf Hs Ho Hl Hr Ht.
  destruct (step_satisfied _ _ _ _ _ _ Hf Hs Hl Hr) as (v & f & Hv & ->).
  exists v, f. split; [done |]. erewrite apply_op_arith; [done | done |].
  simpl. by rewrite length_alter.
Qed.

(** X10: a satisfied ADD, SUB, MUL or DIV changes the target register, the
    program counter and the condition flag, and nothing else: the other
    registers, the memory and [halted] are as they were. *)
Theorem step_arith_frame c counter w i l r t :
  fetches c counter w i ->
  satisfied c i ->
  is_arith (op i) = true ->
  reg_value (registers (state c)) (reg_src1 i) = Some l ->
  reg_value (registers (state c)) (reg_src2 i) = Some r ->
  py_index (length (registers (state c))) (reg_target i) = Some t ->
  exists c',
    step c = (Returns tt, c') /\
    (forall k, k <> pc -> k <> t ->
       registers (state c') !! k = registers (state c) !! k) /\
    memory (state c') = memory (state c) /\
    halted (state c') = halted (state c).
Proof.
  intros Hf Hs Ho Hl Hr Ht.
  destruct (step_arith _ _ _ _ _ _ _ Hf Hs Ho Hl Hr Ht) as (v & f & _ & ->).
  eexists; split; [reflexivity |]. simpl. split_and!; try done.
  intros k Hpc Hk. by rewrite !list_lookup_alter_ne.
Qed.

(** X11: SUB into register 0 compares: the condition flag tells how the
    first operand stands to the second plus the offset, and no register but
    the program counter changes, since the zero register drops the
    difference. *)
Theorem step_compare c counter w i a b :
  fetches c counter w i ->
  satisfied c i ->
  op i = SUB ->
  reg_target i = 0 ->
  registers (state c) !! 0%nat = Some ZeroReg ->
  reg_value (registers (state c)) (reg_src1 i) = Some a ->
  reg_value (registers (state c)) (reg_src2 i) = Some b ->
  exists c',
    step c = (Returns tt, c') /\
    (a < b + offset i -> condition (state c') = CondFlag_M) /\
    (a = b + offset i -> condition (state c') = CondFlag_Z) /\
    (a > b + offset i -> condition (state c') = CondFlag_P) /\
    (forall k, k <> pc ->
       registers (state c') !! k = registers (state c) !! k).
Proof.
  intros Hf Hs Ho Ht Hz Ha Hb.
  assert (py_index (length (registers (state c))) (reg_target i) = Some 0%nat)
    as Hidx.
  { rewrite Ht. apply lookup_lt_Some in Hz.
    rewrite py_index_nonneg; [done | lia]. }
  destruct (step_arith _ _ _ _ _ _ _ Hf Hs ltac:(by rewrite Ho) Ha Hb Hidx)
    as (v & f & Hv & ->).
  rewrite Ho in Hv.
  destruct (ALU_exec_returns SUB a (b + offset i) _ eq_refl)
    as (f' & Hv' & Hlt & Heq & Hgt).
  assert (v = a - (b + offset i) /\ f = f') as [-> ->] by (split; congruence).
  eexists; split; [reflexivity |]. simpl.
  split_and!; [intros; apply Hlt; lia | intros; apply Heq; lia
              | intros; apply Hgt; lia |].
  intros k Hk. destruct (decide (k = 0%nat)) as [-> | Hk0].
  - rewrite list_lookup_alter_eq, list_lookup_alter_ne, Hz; done.
  - by rewrite !list_lookup_alter_ne.
Qed.

(** X12: an operand read from register 15 is the address of the instruction
    itself, not the advanced counter: with register 15 as first source, the
    target receives what the ALU makes of that address. *)
Theorem step_pc_operand c counter w i r t :
  fetches c counter w i ->
  satisfied c i ->
  is_arith (op i) = true ->
  reg_src1 i = 15 ->
  reg_value (registers (state c)) (reg_src2 i) = Some r ->
  py_index (length (registers (state c))) (reg_target i) = Some t ->
  registers (state c) !! t <> Some ZeroReg ->
  exists v f c',
    ALU_exec (op i) counter (r + offset i) = Some (v, f) /\
    step c = (Returns tt, c') /\
    registers (state c') !! t = Some (Reg v).
Proof.
  intros Hf Hs Ho Hsrc Hr Ht Hnz.
  assert (reg_value (registers (state c)) (reg_src1 i) = Some counter) as Hl.
  { destruct Hf as (Hpc & _ & _). unfold reg_value.
    rewrite Hsrc, py_index_nonneg.
    - simpl. change (Z.to_nat 15) with pc. by rewrite Hpc.
    - apply lookup_lt_Some in Hpc. unfold pc in Hpc. lia. }
  destruct (step_arith _ _ _ _ _ _ _ Hf Hs Ho Hl Hr Ht) as (v & f & Hv & ->).
  exists v, f. eexists; split_and!; try done. simpl.
  apply py_index_lt in Ht.
  destruct (lookup_lt_is_Some_2 _ _ Ht) as [[x |] Hx]; [| done].
  rewrite list_lookup_alter_eq.
  destruct (decide (t = pc)) as [-> | Hne].
  - by rewrite list_lookup_alter_eq, Hx.
  - by rewrite list_lookup_alter_ne, Hx.
Qed.

(** X13: a STORE of register 15 stores the advanced counter, the address of
    the next instruction, since the program counter is advanced before the
    store is made. *)
Theorem step_store_pc c counter w i l r m :
  fetches c counter w i ->
  satisfied c i ->
  op i = STORE ->
  reg_target i = 15 ->
  reg_value (registers (state c)) (reg_src1 i) = Some l ->
  reg_value (registers (state c)) (reg_src2 i) = Some r ->
  Memory_put (memory (state c)) (l + r + offset i) (counter + 1) = Some m ->
  exists c',
    step c = (Returns tt, c') /\ memory (state c') = m.
Proof.
  intros Hf Hs Ho Ht Hl Hr Hm.
  destruct (step_satisfied _ _ _ _ _ _ Hf Hs Hl Hr) as (a & f & Ha & ->).
  apply ALU_exec_address in Ha as ->; [| by right]. rewrite Z.add_assoc.
  destruct Hf as (Hpc & _ & _).
  erewrite apply_op_STORE; [by eexists | done | | exact Hm].
  simpl. unfold reg_value. rewrite length_alter, Ht, py_index_nonneg.
  - simpl. change (Z.to_nat 15) with pc.
    by rewrite list_lookup_alter_eq, Hpc.
  - apply lookup_lt_Some in Hpc. unfold pc in Hpc. lia.
Qed.

(** X14: a DIV by zero inside a program does not raise: the cycle returns,
    the target register receives 0 and the condition flag becomes V. *)
Theorem step_div_zero c counter w i l r t :
  fetches c counter w i ->
  satisfied c i ->
  op i = DIV ->
  reg_value (registers (state c)) (reg_src1 i) = Some l ->
  reg_value (registers (state c)) (reg_src2 i) = Some r ->
  r + offset i = 0 ->
  py_index (length (registers (state c))) (reg_target i) = Some t ->
  registers (state c) !! t <> Some ZeroReg ->
  exists c',
    step c = (Returns tt, c') /\
    registers (state c') !! t = Some (Reg 0) /\
    condition (state c') = CondFlag_V.
Proof.
  intros Hf Hs Ho Hl Hr Hz Ht Hnz.
  destruct (step_arith _ _ _ _ _ _ _ Hf Hs ltac:(by rewrite Ho) Hl Hr Ht)
    as (v & f & Hv & ->).
  rewrite Ho, Hz in Hv. injection Hv as <- <-.
  eexists; split_and!; try done. simpl.
  apply py_index_lt in Ht.
  destruct (lookup_lt_is_Some_2 _ _ Ht) as [[x |] Hx]; [| done].
  rewrite list_lookup_alter_eq.
  destruct (decide (t = pc)) as [-> | Hne].
  - by rewrite list_lookup_alter_eq, Hx.
  - by rewrite list_lookup_alter_ne, Hx.
Qed.
End more_cycles.

Section more_run.
Context `{Collaborators}.

(** The loop, whatever its outcome, is a sequence of cycles: a property of
    the CPU that holds before the loop and that every cycle hands on holds
    after it. *)
Lemma run_loop_invariant (P : CPU -> Prop) fuel single_step k c r c' :
  (forall c1, P c1 -> P (step c1).2) ->
  P c ->
  run_loop fuel single_step k c = Some (r, c') ->
  P c'.
Proof.
  intros Hstep. revert k c. induction fuel as [| fuel IH]; intros k c Hc; simpl.
  - destruct (halted (state c)); [| done]. by intros [= <- <-].
  - destruct (halted (state c)); [by intros [= <- <-] |].
    destruct (pause single_step k); [| by intros [= <- <-] | done].
    specialize (Hstep c Hc).
    destruct (step c) as [[[] | e] c1]; simpl in Hstep.
    + by apply IH.
    + by intros [= <- <-].
Qed.

Lemma wf_registers_after_step c :
  wf_registers (registers (state c)) = true ->
  wf_registers (registers (state (step c).2)) = true.
Proof. intros Hwf. pose proof (wf_registers_step c) as Hk. simpl in Hk. congruence. Qed.

(** X15: the register list keeps the shape that [__init__] gives it: after
    [run], returned or raised, there are still sixteen cells, the first is
    the zero register and register 0 reads 0. *)
Theorem run_keeps_registers_shape :
  (forall m, wf_registers (registers (state (CPU_init m))) = true) /\
  (forall c fuel from_addr single_step r c',
     wf_registers (registers (state c)) = true ->
     run fuel from_addr single_step c = Some (r, c') ->
     wf_registers (registers (state c')) = true /\
     length (registers (state c')) = 16%nat /\
     reg_value (registers (state c')) 0 = Some 0).
Proof.
  split; [done |]. intros c fuel from_addr single_step r c' Hwf Hrun.
  assert (wf_registers (registers (state c')) = true) as Hwf'.
  { unfold run in Hrun. rewrite run_reset_Returns in Hrun.
    eapply (run_loop_invariant
              (fun c => wf_registers (registers (state c)) = true));
      [| | exact Hrun].
    - apply wf_registers_after_step.
    - simpl. by rewrite wf_registers_put. }
  split; [done |].
  destruct (wf_registers_inv _ Hwf') as (Hlen & Hz & _). split; [done |].
  unfold reg_value. rewrite py_index_nonneg by lia.
  change (Register_get <$> registers (state c') !! 0%nat = Some 0).
  by rewrite Hz.
Qed.

(** The last cycle of a loop that has made at least one. *)
Lemma runs_to_last (P : CPU -> Prop) c j c' :
  (forall c1, P c1 -> P (step c1).2) ->
  runs_to c j c' ->
  halted (state c) = false ->
  P c ->
  exists c1,
    P c1 /\ halted (state c1) = false /\ step c1 = (Returns tt, c') /\
    halted (state c') = true.
Proof.
  intros HP Hruns. induction Hruns as [c Hh | c c1 j c' Hh Hstep Hruns IH];
    intros Hnh Hc; [congruence |].
  destruct (halted (state c1)) eqn:Hh1.
  - inversion Hruns; subst; [| congruence]. by exists c.
  - apply IH; [done |]. specialize (HP c Hc). by rewrite Hstep in HP.
Qed.

(** X16: when [run] returns, the CPU is halted and the last cycle was a HALT
    fetched with its predicate satisfied; the program counter is one past
    the address of that HALT. *)
Theorem run_returns_after_HALT c fuel from_addr single_step n c' :
  wf_registers (registers (state c)) = true ->
  run fuel from_addr single_step c = Some (Returns n, c') ->
  halted (state c') = true /\
  exists c1 counter w i,
    fetches c1 counter w i /\ op i = HALT /\ satisfied c1 i /\
    step c1 = (Returns tt, c') /\
    registers (state c') !! pc = Some (Reg (counter + 1)).
Proof.
  intros Hwf Hrun. unfold run in Hrun. rewrite run_reset_Returns in Hrun.
  apply run_loop_runs_to in Hrun as (j & _ & _ & Hruns & _).
  destruct (runs_to_last
              (fun c => wf_registers (registers (state c)) = true) _ _ _
              wf_registers_after_step Hruns)
    as (c1 & Hwf1 & Hnh & Hstep & Hh); [done | |].
  { simpl. by rewrite wf_registers_put. }
  split; [done |].
  destruct (step_halted_cases c1)
    as [Hsame | (r & w & i & Hpc & Hw & Hi & Ho & Hs & Hstep')].
  { rewrite Hstep in Hsame. simpl in Hsame. congruence. }
  destruct (wf_registers_pc _ Hwf1) as [counter Hcounter].
  assert (r = Reg counter) as -> by congruence. simpl in *.
  exists c1, counter, w, i. split_and!; try done.
  assert (c' = set_halted true (advanced (notified c1 counter w i) counter))
    as -> by congruence.
  simpl. by eapply lookup_put_eq.
Qed.

Lemma delivered_app es1 es2 (l0 l1 l2 : list Listener) :
  delivered es1 l0 l1 -> delivered es2 l1 l2 -> delivered (es1 ++ es2) l0 l2.
Proof.
  unfold delivered. intros -> ->. rewrite <- list_fmap_compose.
  apply list_fmap_ext. intros _ l _. simpl. by rewrite app_assoc.
Qed.

Lemma runs_to_delivered c j c' :
  runs_to c j c' ->
  exists es, length es = j /\ delivered es (listeners c) (listeners c').
Proof.
  induction 1 as [c Hh | c c1 j c' Hh Hstep _ (es & Hlen & Hes)].
  - exists []. split; [done |]. unfold delivered.
    rewrite <- (list_fmap_id (listeners c)) at 1.
    apply list_fmap_ext. intros _ l _. simpl. by rewrite app_nil_r.
  - destruct (step_listeners_cases c) as [(e & He & _) | (ev & Hev)].
    { by rewrite Hstep in He. }
    rewrite Hstep in Hev. exists (ev :: es). split; [simpl; by rewrite Hlen |].
    by apply (delivered_app [ev] es _ _ _ Hev).
Qed.

(** X17: when [run] returns having counted [n] steps, every listener has
    received exactly [n] events more, the same events for all listeners and
    in the same order. *)
Theorem run_delivers_events c fuel from_addr single_step n c' :
  run fuel from_addr single_step c = Some (Returns n, c') ->
  exists es,
    Z.of_nat (length es) = n /\ delivered es (listeners c) (listeners c').
Proof.
  intros Hrun. unfold run in Hrun. rewrite run_reset_Returns in Hrun.
  apply run_loop_runs_to in Hrun as (j & _ & -> & Hruns & _).
  destruct (runs_to_delivered _ _ _ Hruns) as (es & Hlen & Hes).
  exists es. split; [lia | done].
Qed.

(** X18: when [run] is aborted by an exception, the CPU is left not halted:
    no cycle that raises sets [halted]. *)
Theorem run_raises_not_halted c fuel from_addr single_step e c' :
  run fuel from_addr single_step c = Some (Raises e, c') ->
  halted (state c') = false.
Proof.
  unfold run. rewrite run_reset_Returns.
  generalize (set_registers
                (alter (Register_put from_addr) pc (registers (state c)))
                (set_halted false c)).
  generalize 0. clear c.
  induction fuel as [| fuel IH]; intros k c; simpl.
  - by destruct (halted (state c)).
  - destruct (halted (state c)) eqn:Hh; [done |].
    destruct (pause single_step k); [| by intros [= _ <-] | done].
    destruct (step c) as [[[] | e1] c1] eqn:Hstep; [apply IH |].
    intros [= -> ->].
    destruct (step_halted_cases c) as [Hsame | (r & w & i & Hrest)].
    + rewrite Hstep in Hsame. simpl in Hsame. congruence.
    + destruct Hrest as (_ & _ & _ & _ & _ & Hret). congruence.
Qed.

(** X19: [run] does not return as long as no HALT is executed: if the reset
    CPU lies in a set of CPUs that are not halted and that a cycle maps into
    the set again, [run] never returns; and unless [input] raises at some
    pause (it is not called without single-step mode), [run] does not raise
    either: it has not come to an end after any number of iterations. *)
Theorem run_never_returns (Inv : CPU -> Prop) c from_addr single_step :
  Inv (run_reset from_addr c).2 ->
  (forall c1, Inv c1 ->
     halted (state c1) = false /\
     exists c2, step c1 = (Returns tt, c2) /\ Inv c2) ->
  (forall fuel n c',
     run fuel from_addr single_step c <> Some (Returns n, c')) /\
  ((forall k e, pause single_step k <> Input_raises e) ->
   forall fuel, run fuel from_addr single_step c = None).
Proof.
  intros Hc HInv. unfold run. rewrite run_reset_Returns in *. simpl in Hc.
  revert Hc.
  generalize (set_registers
                (alter (Register_put from_addr) pc (registers (state c)))
                (set_halted false c)).
  generalize 0. clear c. intros k c0 Hc. split.
  - intros fuel. revert k c0 Hc.
    induction fuel as [| fuel IH]; intros k c0 Hc n c'; simpl;
      destruct (HInv c0 Hc) as (-> & c2 & Hstep & Hc2); [done |].
    destruct (pause single_step k); [| done..].
    rewrite Hstep. by apply IH.
  - intros Hack fuel. revert k c0 Hc.
    induction fuel as [| fuel IH]; intros k c0 Hc; simpl;
      destruct (HInv c0 Hc) as (-> & c2 & Hstep & Hc2); [done |].
    destruct (pause single_step k) eqn:Hp; [| by apply Hack in Hp | done].
    rewrite Hstep. by apply IH.
Qed.

(** X20: the condition flag after [run], returned or raised, is the flag
    from before or one of the flags M, Z, P, V of the ALU: [run] itself
    does not reset it and a cycle only ever assigns a flag of the ALU. *)
Theorem run_condition c fuel from_addr single_step r c' :
  run fuel from_addr single_step c = Some (r, c') ->
  condition (state c') = condition (state c) \/
  ALU_flag (condition (state c')).
Proof.
  unfold run. rewrite run_reset_Returns. intros Hrun.
  eapply (run_loop_invariant
            (fun c1 => condition (state c1) = condition (state c) \/
                       ALU_flag (condition (state c1))));
    [| | exact Hrun].
  - intros c1 Hc1.
    destruct (step_condition_cases c1) as [-> | Hflag]; [done | by right].
  - by left.
Qed.
End more_run.

(** ** These properties at work on the second machine *)

(** The program counter at 50, past the eleven words of the memory. *)
Lemma step_fetch_error_witness :
  step (Bench.cpu 50 15) = (Raises AddressError, Bench.cpu 50 15).
Proof. apply (step_fetch_error (Bench.cpu 50 15) 50); reflexivity. Defined.

(** Address 10 holds the word 77, which is no instruction. *)
Lemma step_decode_error_witness :
  step (Bench.cpu 10 15) = (Raises DecodeError, Bench.cpu 10 15).
Proof. apply (step_decode_error (Bench.cpu 10 15) 10 77); reflexivity. Defined.

(** Instruction 8 reads register 16. *)
Lemma step_operand_error_witness :
  step (Bench.cpu 8 15) =
    (Raises IndexError, notified (Bench.cpu 8 15) 8 8 (Bench.instruction 8)).
Proof.
  apply (step_operand_error (Bench.cpu 8 15) 8 8 (Bench.instruction 8));
    [by vm_compute | by vm_compute | left; reflexivity].
Defined.

(** Instruction 5 stores r1 = 3 at address 100. *)
Lemma step_store_error_witness :
  step (Bench.cpu 5 15) =
    (Raises AddressError,
     advanced (notified (Bench.cpu 5 15) 5 5 (Bench.instruction 5)) 5).
Proof.
  apply (step_store_error (Bench.cpu 5 15) 5 5 (Bench.instruction 5) 0 0 3);
    solve [reflexivity | by vm_compute].
Defined.

(** Instruction 6 loads r1 from address 100. *)
Lemma step_load_error_witness :
  step (Bench.cpu 6 15) =
    (Raises AddressError,
     advanced (notified (Bench.cpu 6 15) 6 6 (Bench.instruction 6)) 6).
Proof.
  apply (step_load_error (Bench.cpu 6 15) 6 6 (Bench.instruction 6) 0 0 1%nat);
    solve [reflexivity | by vm_compute].
Defined.

(** Instruction 7 adds into register 16. *)
Lemma step_target_error_witness :
  step (Bench.cpu 7 15) =
    (Raises IndexError,
     advanced (notified (Bench.cpu 7 15) 7 7 (Bench.instruction 7)) 7).
Proof.
  apply (step_target_error (Bench.cpu 7 15) 7 7 (Bench.instruction 7) 0 0);
    solve [reflexivity | by vm_compute].
Defined.

(** Instruction 1, r3 := r15 + r0 + 10, touches r3, r15 and the flag. *)
Lemma step_arith_frame_witness :
  exists c',
    step (Bench.cpu 1 15) = (Returns tt, c') /\
    (forall k, k <> pc -> k <> 3%nat ->
       registers (state c') !! k = registers (state (Bench.cpu 1 15)) !! k) /\
    memory (state c') = memory (state (Bench.cpu 1 15)) /\
    halted (state c') = halted (state (Bench.cpu 1 15)).
Proof.
  apply (step_arith_frame (Bench.cpu 1 15) 1 1 (Bench.instruction 1) 1 0 3%nat);
    solve [reflexivity | by vm_compute].
Defined.

(** Instruction 0 compares r1 = 3 with r2 = 7. *)
Lemma step_compare_witness :
  exists c',
    step (Bench.cpu 0 15) = (Returns tt, c') /\
    (3 < 7 + 0 -> condition (state c') = 1) /\
    (3 = 7 + 0 -> condition (state c') = 2) /\
    (3 > 7 + 0 -> condition (state c') = 4) /\
    (forall k, k <> pc ->
       registers (state c') !! k = registers (state (Bench.cpu 0 15)) !! k).
Proof.
  apply (step_compare (Bench.cpu 0 15) 0 0 (Bench.instruction 0) 3 7);
    solve [reflexivity | by vm_compute].
Defined.

(** Instruction 1 at address 1 leaves 1 + 0 + 10 in r3. *)
Lemma step_pc_operand_witness :
  exists v f c',
    @ALU_exec Bench.machine ADD 1 (0 + 10) = Some (v, f) /\
    step (Bench.cpu 1 15) = (Returns tt, c') /\
    registers (state c') !! 3%nat = Some (Reg v).
Proof.
  apply (step_pc_operand (Bench.cpu 1 15) 1 1 (Bench.instruction 1) 0 3%nat);
    solve [reflexivity | by vm_compute].
Defined.

(** Instruction 2 at address 2 stores 3 at address 6. *)
Lemma step_store_pc_witness :
  exists c',
    step (Bench.cpu 2 15) = (Returns tt, c') /\
    memory (state c') = <[6%nat := 3]> Bench.words.
Proof.
  apply (step_store_pc (Bench.cpu 2 15) 2 2 (Bench.instruction 2) 0 0);
    solve [reflexivity | by vm_compute].
Defined.

(** Instruction 3 divides r1 by r0 + 0. *)
Lemma step_div_zero_witness :
  exists c',
    step (Bench.cpu 3 15) = (Returns tt, c') /\
    registers (state c') !! 4%nat = Some (Reg 0) /\
    condition (state c') = 8.
Proof.
  apply (step_div_zero (Bench.cpu 3 15) 3 3 (Bench.instruction 3) 3 0 4%nat);
    solve [reflexivity | by vm_compute].
Defined.

(** The run of ADD, STORE, HALT on the first machine. *)
Lemma run_keeps_registers_shape_witness :
  exists r c',
    run 10 0 false (Demo.boot [0; 1; 2]) = Some (r, c') /\
    wf_registers (registers (state c')) = true /\
    length (registers (state c')) = 16%nat /\
    reg_value (registers (state c')) 0 = Some 0.
Proof.
  eexists _, _. split; [reflexivity |].
  eapply (proj2 run_keeps_registers_shape (Demo.boot [0; 1; 2]) 10%nat 0 false);
    reflexivity.
Defined.

Lemma run_returns_after_HALT_witness :
  exists c',
    run 10 0 false (Demo.boot [0; 1; 2]) = Some (Returns 3, c') /\
    halted (state c') = true /\
    exists c1 counter w i,
      fetches c1 counter w i /\ op i = HALT /\ satisfied c1 i /\
      step c1 = (Returns tt, c') /\
      registers (state c') !! pc = Some (Reg (counter + 1)).
Proof.
  eexists. split; [reflexivity |].
  apply (run_returns_after_HALT (Demo.boot [0; 1; 2]) 10%nat 0 false 3);
    reflexivity.
Defined.

Lemma run_delivers_events_witness :
  exists c' es,
    run 10 0 false (Demo.boot [0; 1; 2]) = Some (Returns 3, c') /\
    Z.of_nat (length es) = 3 /\
    delivered es (listeners (Demo.boot [0; 1; 2])) (listeners c').
Proof.
  eexists.
  destruct (run_delivers_events (Demo.boot [0; 1; 2]) 10%nat 0 false 3 _ eq_refl)
    as (es & Hlen & Hes).
  exists es. split; [reflexivity | by split].
Defined.

(** A run from address 50 of the second machine stops at the fetch. *)
Lemma run_raises_not_halted_witness :
  exists c',
    run 10 50 false (Bench.cpu 0 15) = Some (Raises AddressError, c') /\
    halted (state c') = false.
Proof.
  eexists. split; [reflexivity |].
  apply (run_raises_not_halted (Bench.cpu 0 15) 10%nat 50 false AddressError).
  reflexivity.
Defined.

(** Instruction 4, r15 := r15 + r0 + 0, jumps to itself for ever. *)
Lemma run_never_returns_witness :
  run 1000 4 false (Bench.cpu 4 4) = None.
Proof.
  apply (proj2 (run_never_returns
                  (fun c => state c = state (Bench.cpu 4 4))
                  (Bench.cpu 4 4) 4 false eq_refl
                  ltac:(intros [s ls] Hs; simpl in Hs; subst s;
                        split; [reflexivity |];
                        eexists; split; [lazy; reflexivity | reflexivity]))).
  intros k e. discriminate.
Defined.

Lemma run_condition_witness :
  exists r c',
    run 10 0 false (Demo.boot [0; 1; 2]) = Some (r, c') /\
    (condition (state c') = condition (state (Demo.boot [0; 1; 2])) \/
     ALU_flag (condition (state c'))).
Proof.
  eexists _, _. split; [reflexivity |].
  eapply (run_condition (Demo.boot [0; 1; 2]) 10%nat 0 false). reflexivity.
Defined.
